(** * The orchestrator's request handlers (src/orchestrator/api.py)

    The file embeds the FastAPI handlers of [orchestrator/api.py].  A handler
    is a program over the orchestrator's state: it may read the miner
    registry, ask the Epistula verifier about the request signature, ask the
    chain for the signer's entity type, call one method of the orchestrator,
    and either return a response or raise.  The embedding keeps all of that:
    handlers are written in a state-and-exception monad that also records, in
    order, every collaborator the handler touched.

    The collaborators themselves ([orchestrator.orchestrator], [settings],
    [utils.epistula], [utils.bt_utils], [orchestrator.serializers]) are
    imported by the file and not part of it; they enter as the record
    [Orch.t] and the record [Env].  Rate limiting (the [limiter.limit]
    decorators) and FastAPI's own header parsing are transport and are left
    out: a request here already carries its five Epistula headers. *)

From Stdlib Require Import QArith.
From stdpp Require Import gmap strings list fin_maps pretty.

Set Warnings "-register-all".

Local Open Scope Z_scope.
Local Open Scope string_scope.

(** ** Python values *)

(** Python floats are only carried around by the handlers (scores, losses,
    timestamps); they are represented by rationals. *)
Definition float : Type := Q.

(** The values the metrics methods return and the dictionaries the handlers
    build. *)
Inductive Value :=
| PyNone
| PyBool (b : bool)
| PyInt (n : Z)
| PyFloat (x : float)
| PyStr (s : string)
| PyList (l : list Value)
| PyDict (items : list (Value * Value)).

(** The exceptions a handler can see.  [except IndexError] catches the
    second, [except Exception] all three. *)
Inductive exn :=
| HTTPException (status_code : Z) (detail : string)
| IndexError (msg : string)
| PyError (cls msg : string).

(** [str(e)]; for an [HTTPException] Starlette prints the status code and
    the detail. *)
Definition str_exn (e : exn) : string :=
  match e with
  | HTTPException status_code detail => pretty status_code ++ ": " ++ detail
  | IndexError msg => msg
  | PyError _ msg => msg
  end.

Definition Result (A : Type) : Type := (exn + A)%type.

(** Truth value of an [Optional[str]], as in [if error:]. *)
Definition truthy (error : option string) : bool :=
  match error with
  | None => false
  | Some msg => negb (String.eqb msg "")
  end.

(** ** Request data *)

Record EpistulaHeaders := {
  version : string;
  timestamp : string;
  uuid : string;
  signed_by : string;
  request_signature : string;
}.

(** [MinerStatusUpdate], as far as the handler reads it. *)
Record MinerStatusUpdate := {
  su_status : string;
  su_activation_uid : option string;
  su_activation_path : option string;
}.

(** [LossReportRequest], as far as the handler reads it. *)
Record LossReportRequest := {
  lr_activation_uid : string;
  lr_loss_value : float;
}.

(** Modelled from the spec: [utils.partitions.Partition] is not in the
    source; the spec identifies a partition by layer, section index and
    contributing hotkey.  The handlers never look inside one. *)
Record Partition := {
  p_layer : Z;
  p_section : Z;
  p_hotkey : string;
}.

(** What a signature is computed over: the argument the handler gives to
    [create_message_body]. *)
Inductive MessageBody :=
| BodyEmpty
| BodyWeights (weights : list (string * float))
| BodyStatus (status_update : MinerStatusUpdate)
| BodyPartitions (partitions : list Partition)
| BodyLoss (loss_report : LossReportRequest).

Inductive EntityType := miner | validator.

(** ** Registry and session records read by the handlers *)

Record MinerData := {
  md_hotkey : string;
  md_layer : option Z;
  md_status : string;
}.

Definition PartitionKey : Type := Z * Z * string.

Record MergeSession := {
  session_id : string;
  ms_layer : Z;
  ms_status : string;
  started_at : float;
  completed_at : option float;
  target_miners : gset string;
  weights_received : gset string;
  partitions_completed : gset PartitionKey;
}.

(** ** Response models *)

Record MinerRegistrationResponse := {
  reg_hotkey : string;
  reg_layer : option Z;
}.

Record LayerAssignmentResponse := { la_layer : Z }.

Record LossReportResponse := {
  resp_hotkey : string;
  resp_activation_uid : string;
  resp_loss_value : float;
  resp_timestamp : float;
}.

Inductive Response :=
| RespValue (v : Value)
| RespScores (scores : list (string * float))
| RespRegistration (r : MinerRegistrationResponse)
| RespLayer (r : LayerAssignmentResponse)
| RespLoss (r : LossReportResponse)
| RespAllLosses (losses : list (string * float))
| RespChunks (chunks : list Value) (indices : list Z).

(** ** The orchestrator, as the handlers use it *)

(** One constructor per orchestrator method a handler can invoke, with the
    arguments the handler passes. *)
Inductive Call :=
| Call_get_global_miner_scores
| Call_submit_miner_scores (weights : list (string * float))
| Call_register (hotkey : string)
| Call_update_status (hotkey status : string) (activation_uid activation_path : option string)
| Call_request_layer
| Call_notify_weights_uploaded
    (hotkey weights_path metadata_path optimizer_state_path optimizer_state_metadata_path : string)
| Call_notify_merged_partitions_uploaded (hotkey : string) (partitions : list Partition)
| Call_losses
| Call_record_and_report_loss (hotkey activation_uid : string) (loss : float)
| Call_is_merging (layer : Z)
| Call_get_chunks_for_miner (hotkey : string)
| Call_register_validator (hotkey host : string) (port : Z) (scheme : string)
| Call_get_miner_performance_metrics (miner_hotkey : string) (time_window_seconds : option Z)
| Call_get_layer_performance_metrics (layer : Z) (time_window_seconds : option Z)
| Call_get_real_time_performance_dashboard
| Call_get_weight_merging_metrics_summary
| Call_get_active_merge_sessions
| Call_get_merge_statistics (layer : option Z) (time_window_seconds : Z)
| Call_completed_sessions
| Call_get_historical_processing_times
    (time_window_hours : option Z) (include_layer_breakdown : option bool) (granularity : option string)
| Call_get_merge_session_timeline (time_window_hours : Z)
| Call_get_miners_grid_status
| Call_get_miner_detail (miner_hotkey : string)
| Call_get_miners_by_merge_status (layer : option Z).

Module Orch.

(** The methods of the [orchestrator] object that [api.py] calls, over an
    orchestrator state [S].  A method takes the state and gives back its
    result, or the exception it raised, and the new state.  [MG] is the type
    of [orchestrator.metagraph]. *)
Record t (S MG : Type) := {
  (** [miner_registry.get_all_miner_data()] *)
  get_all_miner_data : S → gmap string MinerData;
  (** the exception [miner_registry.get_miner_data] ends in for a hotkey
      that has no record *)
  no_miner : string → exn;
  metagraph : S → MG;
  N_LAYERS : Z;
  get_global_miner_scores : S → Result (list (string * float)) * S;
  submit_miner_scores : list (string * float) → S → Result unit * S;
  register : string → S → Result (option Z) * S;
  update_status : string → string → option string → option string → S → Result unit * S;
  request_layer : S → Result Z * S;
  notify_weights_uploaded : string → string → string → string → string → S → Result bool * S;
  notify_merged_partitions_uploaded : string → list Partition → S → Result unit * S;
  losses : S → list (string * float);
  record_and_report_loss : string → string → float → S → Result unit * S;
  is_merging : Z → S → Result (string * Z) * S;
  get_chunks_for_miner : string → S → Result (list Value * list Z) * S;
  register_validator : string → string → Z → string → S → Result bool * S;
  get_miner_performance_metrics : string → option Z → S → Result Value * S;
  get_layer_performance_metrics : Z → option Z → S → Result Value * S;
  get_real_time_performance_dashboard : S → Result Value * S;
  get_weight_merging_metrics_summary : S → Result Value * S;
  get_active_merge_sessions : S → Result Value * S;
  (** [weight_merging_metrics_collector.get_merge_statistics] *)
  get_merge_statistics : option Z → Z → S → Result Value * S;
  (** [weight_merging_metrics_collector.completed_sessions] *)
  completed_sessions : S → list MergeSession;
  get_historical_processing_times : option Z → option bool → option string → S → Result Value * S;
  get_merge_session_timeline : Z → S → Result Value * S;
  get_miners_grid_status : S → Result Value * S;
  get_miner_detail : string → S → Result Value * S;
  get_miners_by_merge_status : option Z → S → Result Value * S;
}.

#[global] Arguments get_all_miner_data {S MG} _ _.
#[global] Arguments no_miner {S MG} _ _.
#[global] Arguments metagraph {S MG} _ _.
#[global] Arguments N_LAYERS {S MG} _.
#[global] Arguments get_global_miner_scores {S MG} _ _.
#[global] Arguments submit_miner_scores {S MG} _ _ _.
#[global] Arguments register {S MG} _ _ _.
#[global] Arguments update_status {S MG} _ _ _ _ _ _.
#[global] Arguments request_layer {S MG} _ _.
#[global] Arguments notify_weights_uploaded {S MG} _ _ _ _ _ _ _.
#[global] Arguments notify_merged_partitions_uploaded {S MG} _ _ _ _.
#[global] Arguments losses {S MG} _ _.
#[global] Arguments record_and_report_loss {S MG} _ _ _ _ _.
#[global] Arguments is_merging {S MG} _ _ _.
#[global] Arguments get_chunks_for_miner {S MG} _ _ _.
#[global] Arguments register_validator {S MG} _ _ _ _ _ _.
#[global] Arguments get_miner_performance_metrics {S MG} _ _ _ _.
#[global] Arguments get_layer_performance_metrics {S MG} _ _ _ _.
#[global] Arguments get_real_time_performance_dashboard {S MG} _ _.
#[global] Arguments get_weight_merging_metrics_summary {S MG} _ _.
#[global] Arguments get_active_merge_sessions {S MG} _ _.
#[global] Arguments get_merge_statistics {S MG} _ _ _ _.
#[global] Arguments completed_sessions {S MG} _ _.
#[global] Arguments get_historical_processing_times {S MG} _ _ _ _ _.
#[global] Arguments get_merge_session_timeline {S MG} _ _ _.
#[global] Arguments get_miners_grid_status {S MG} _ _.
#[global] Arguments get_miner_detail {S MG} _ _ _.
#[global] Arguments get_miners_by_merge_status {S MG} _ _ _.

(** Modelled from the spec: [miner_registry.get_miner_data] is not in the
    source.  The spec gives the registry read as
    [get(hotkey) -> MinerRecord | NotFound]: the record of a known hotkey,
    a failure for an unknown one.  The registry is the dictionary
    [get_all_miner_data] returns. *)
Definition get_miner_data {S MG} (o : t S MG) (hotkey : string) (s : S) : Result MinerData :=
  match get_all_miner_data o s !! hotkey with
  | Some data => inr data
  | None => inl (no_miner o hotkey)
  end.

End Orch.

(** [settings], [utils.epistula] and [utils.bt_utils], and the clock. *)
Record Env (MG : Type) := {
  BITTENSOR : bool;
  (** [headers.verify_signature_v2(create_message_body(body), now)]:
      [None] or an error text *)
  verify_signature_v2 : EpistulaHeaders → MessageBody → float → option string;
  (** [verify_entity_type(signed_by, metagraph, required_type)]: the entity
      info (its uid), or the exception of a rejected signer *)
  verify_entity_type : string → MG → EntityType → Result Z;
  (** [time.time()] while the request is handled *)
  time_time : float;
}.

Arguments BITTENSOR {MG} _.
Arguments verify_signature_v2 {MG} _ _ _ _.
Arguments verify_entity_type {MG} _ _ _ _.
Arguments time_time {MG} _.

(** ** What a handler did, in order *)

Inductive Event :=
| EvGetMinerData (hotkey : string)
| EvGetAllMinerData
| EvVerifySignature (signer : string) (body : MessageBody) (error : option string)
| EvVerifyEntityType (signer : string) (required_type : EntityType)
| EvCall (c : Call).

(** ** The handler monad *)

Module api.

Section Handlers.

Context {S MG : Type}.
Variable orchestrator : Orch.t S MG.
Variable env : Env MG.

(** A handler runs from an orchestrator state to a result (a value or the
    exception raised), the state it leaves, and the trace of what it did. *)
Definition M (A : Type) : Type := S → Result A * S * list Event.

#[global] Instance M_ret : MRet M := λ A a s, (inr a, s, []).

#[global] Instance M_bind : MBind M := λ A B k m s,
  match m s with
  | (inl e, s1, t1) => (inl e, s1, t1)
  | (inr a, s1, t1) =>
      match k a s1 with
      | (r, s2, t2) => (r, s2, (t1 ++ t2)%list)
      end
  end.

Definition raise {A} (e : exn) : M A := λ s, (inl e, s, []).

(** [try: body except ...: handler]; [handler e] is [None] when no
    [except] clause matches [e]. *)
Definition try_except {A} (body : M A) (handler : exn → option (M A)) : M A := λ s,
  match body s with
  | (inr a, s1, t1) => (inr a, s1, t1)
  | (inl e, s1, t1) =>
      match handler e with
      | None => (inl e, s1, t1)
      | Some h =>
          match h s1 with
          | (r, s2, t2) => (r, s2, (t1 ++ t2)%list)
          end
      end
  end.

(** [await orchestrator.method(args)] *)
Definition call {A} (c : Call) (method : S → Result A * S) : M A := λ s,
  match method s with
  | (r, s1) => (r, s1, [EvCall c])
  end.

(** Reading an attribute of the orchestrator. *)
Definition attr {A} (c : Call) (get : S → A) : M A := λ s, (inr (get s), s, [EvCall c]).

(** ** Pieces every authenticated handler repeats *)

(** [orchestrator.miner_registry.get_miner_data(signed_by).layer], the
    [layer=] argument of [logger.contextualize]. *)
Definition contextualize_layer (signer : string) : M (option Z) := λ s,
  match Orch.get_miner_data orchestrator signer s with
  | inl e => (inl e, s, [EvGetMinerData signer])
  | inr data => (inr (md_layer data), s, [EvGetMinerData signer])
  end.

(** [error = headers.verify_signature_v2(create_message_body(body), time.time())] *)
Definition verify_signature (headers : EpistulaHeaders) (body : MessageBody) : M (option string) := λ s,
  let error := verify_signature_v2 env headers body (time_time env) in
  (inr error, s, [EvVerifySignature (signed_by headers) body error]).

(** [if error: raise HTTPException(status_code=401, ...)] *)
Definition raise_if_error (error : option string) : M unit :=
  match error with
  | Some msg =>
      if truthy error
      then raise (HTTPException 401 ("Epistula verification failed: " ++ msg))
      else mret tt
  | None => mret tt
  end.

(** [verify_entity_type(signed_by=..., metagraph=orchestrator.metagraph, required_type=...)] *)
Definition check_entity_type (signer : string) (required_type : EntityType) : M Z := λ s,
  (verify_entity_type env signer (Orch.metagraph orchestrator s) required_type, s,
   [EvVerifyEntityType signer required_type]).

(** [if settings.BITTENSOR: verify_entity_type(...)] *)
Definition if_BITTENSOR (signer : string) (required_type : EntityType) : M unit :=
  if BITTENSOR env then check_entity_type signer required_type;; mret tt else mret tt.

Definition message (text : string) : Value := PyDict [(PyStr "message", PyStr text)].

(** [except IndexError: raise HTTPException(status_code=404, detail="Miner not found")] *)
Definition except_IndexError {A} (e : exn) : option (M A) :=
  match e with
  | IndexError _ => Some (raise (HTTPException 404 "Miner not found"))
  | _ => None
  end.

(** ** The handlers *)

Definition get_global_miner_weights : M Response :=
  scores ← call Call_get_global_miner_scores (Orch.get_global_miner_scores orchestrator);
  mret (RespScores scores).

Definition submit_miner_weights (weights : list (string * float)) (headers : EpistulaHeaders)
  : M Response :=
  error ← verify_signature headers (BodyWeights weights);
  raise_if_error error;;
  if_BITTENSOR (signed_by headers) validator;;
  call (Call_submit_miner_scores weights) (Orch.submit_miner_scores orchestrator weights);;
  mret (RespValue (message "Miner weights submitted successfully")).

Definition register_miner (headers : EpistulaHeaders) : M Response :=
  let signer := signed_by headers in
  try_except
    (error ← verify_signature headers BodyEmpty;
     raise_if_error error;;
     miner_entities ← (λ s, (inr (Orch.get_all_miner_data orchestrator s), s, [EvGetAllMinerData]));
     if_BITTENSOR signer miner;;
     match (miner_entities : gmap string MinerData) !! signer with
     | Some data =>
         mret (RespRegistration {| reg_hotkey := signer; reg_layer := md_layer data |})
     | None =>
         layer ← call (Call_register signer) (Orch.register orchestrator signer);
         match layer with
         | None => raise (HTTPException 409 "Failed to register miner")
         | Some l => mret (RespRegistration {| reg_hotkey := signer; reg_layer := Some l |})
         end
     end)
    (λ _, Some (raise (HTTPException 409 "Failed to register miner"))).

Definition update_miner_status (status_update : MinerStatusUpdate) (headers : EpistulaHeaders)
  : M Response :=
  let signer := signed_by headers in
  contextualize_layer signer;;
  error ← verify_signature headers (BodyStatus status_update);
  raise_if_error error;;
  if_BITTENSOR signer miner;;
  try_except
    (call (Call_update_status signer (su_status status_update)
             (su_activation_uid status_update) (su_activation_path status_update))
          (Orch.update_status orchestrator signer (su_status status_update)
             (su_activation_uid status_update) (su_activation_path status_update));;
     mret (RespValue (message "Status updated successfully")))
    except_IndexError.

Definition request_layer (headers : EpistulaHeaders) : M Response :=
  let signer := signed_by headers in
  contextualize_layer signer;;
  error ← verify_signature headers BodyEmpty;
  raise_if_error error;;
  if_BITTENSOR signer miner;;
  try_except
    (layer ← call Call_request_layer (Orch.request_layer orchestrator);
     mret (RespLayer {| la_layer := layer |}))
    except_IndexError.

Definition healthcheck : M Response :=
  mret (RespValue (PyDict [(PyStr "status", PyStr "healthy")])).

Definition notify_weights_uploaded
    (weights_path metadata_path optimizer_state_path optimizer_state_metadata_path : string)
    (headers : EpistulaHeaders) : M Response :=
  let signer := signed_by headers in
  contextualize_layer signer;;
  let hotkey := signer in
  error ← verify_signature headers BodyEmpty;
  raise_if_error error;;
  if_BITTENSOR signer miner;;
  try_except
    (success ← call (Call_notify_weights_uploaded hotkey weights_path metadata_path
                       optimizer_state_path optimizer_state_metadata_path)
                    (Orch.notify_weights_uploaded orchestrator hotkey weights_path metadata_path
                       optimizer_state_path optimizer_state_metadata_path);
     mret (RespValue (PyDict [(PyStr "message", PyStr "Weights notification processed successfully");
                              (PyStr "success", PyBool success)])))
    except_IndexError.

Definition notify_merged_partitions_uploaded (partitions : list Partition)
    (headers : EpistulaHeaders) : M Response :=
  let signer := signed_by headers in
  contextualize_layer signer;;
  let body := BodyPartitions partitions in
  error ← verify_signature headers body;
  raise_if_error error;;
  call (Call_notify_merged_partitions_uploaded signer partitions)
       (Orch.notify_merged_partitions_uploaded orchestrator signer partitions);;
  mret (RespValue (message "Merged partitions notification processed successfully")).

Definition get_all_losses : M Response :=
  losses ← attr Call_losses (Orch.losses orchestrator);
  mret (RespAllLosses losses).

Definition report_loss (loss_report : LossReportRequest) (headers : EpistulaHeaders)
  : M Response :=
  let signer := signed_by headers in
  contextualize_layer signer;;
  error ← verify_signature headers (BodyLoss loss_report);
  raise_if_error error;;
  if_BITTENSOR signer miner;;
  try_except
    (call (Call_record_and_report_loss signer (lr_activation_uid loss_report)
             (lr_loss_value loss_report))
          (Orch.record_and_report_loss orchestrator signer (lr_activation_uid loss_report)
             (lr_loss_value loss_report));;
     mret (RespLoss {| resp_hotkey := signer;
                       resp_activation_uid := lr_activation_uid loss_report;
                       resp_loss_value := lr_loss_value loss_report;
                       resp_timestamp := time_time env |}))
    (λ e, Some (raise (HTTPException 500 (str_exn e)))).

Definition is_merging (layer : Z) : M Response :=
  '(merging_phase, num_sections) ← call (Call_is_merging layer) (Orch.is_merging orchestrator layer);
  mret (RespValue (PyDict [(PyStr "status", PyStr merging_phase);
                           (PyStr "num_sections", PyInt num_sections)])).

Definition get_chunks_for_miner (headers : EpistulaHeaders) : M Response :=
  let signer := signed_by headers in
  contextualize_layer signer;;
  error ← verify_signature headers BodyEmpty;
  raise_if_error error;;
  if_BITTENSOR signer miner;;
  '(chunks, indices) ← call (Call_get_chunks_for_miner signer)
                            (Orch.get_chunks_for_miner orchestrator signer);
  mret (RespChunks chunks indices).

Definition register_validator (host : string) (port : Z) (scheme : string)
    (headers : EpistulaHeaders) : M Response :=
  let signer := signed_by headers in
  error ← verify_signature headers BodyEmpty;
  raise_if_error error;;
  if_BITTENSOR signer validator;;
  success ← call (Call_register_validator signer host port scheme)
                 (Orch.register_validator orchestrator signer host port scheme);
  if (success : bool)
  then mret (RespValue (message "Validator registered successfully"))
  else raise (HTTPException 400 "Validator registration failed").

(** *** The metrics surface *)

(** [except Exception as e: raise HTTPException(status_code=500, detail=str(e))] *)
Definition except_500 {A} (e : exn) : option (M A) :=
  Some (raise (HTTPException 500 (str_exn e))).

Definition get_miner_performance (miner_hotkey : string) (time_window_seconds : option Z)
  : M Response :=
  v ← call (Call_get_miner_performance_metrics miner_hotkey time_window_seconds)
           (Orch.get_miner_performance_metrics orchestrator miner_hotkey time_window_seconds);
  mret (RespValue v).

Definition get_layer_performance (layer : Z) (time_window_seconds : option Z) : M Response :=
  v ← call (Call_get_layer_performance_metrics layer time_window_seconds)
           (Orch.get_layer_performance_metrics orchestrator layer time_window_seconds);
  mret (RespValue v).

Definition get_real_time_dashboard : M Response :=
  v ← call Call_get_real_time_performance_dashboard
           (Orch.get_real_time_performance_dashboard orchestrator);
  mret (RespValue v).

Definition get_weight_merging_metrics_summary : M Response :=
  v ← call Call_get_weight_merging_metrics_summary
           (Orch.get_weight_merging_metrics_summary orchestrator);
  mret (RespValue v).

Definition get_active_merge_sessions : M Response :=
  v ← call Call_get_active_merge_sessions (Orch.get_active_merge_sessions orchestrator);
  mret (RespValue v).

(** Modelled from the spec: [MergeSession.get_session_duration] is not in
    the source; the spec defines the duration as completed-at minus
    started-at, undefined while the session has not ended. *)
Definition get_session_duration (session : MergeSession) : option float :=
  match completed_at session with
  | Some ended => Some (ended - started_at session)%Q
  | None => None
  end.

(** Modelled from the spec: [MergeSession.get_participation_rate] is not in
    the source; the spec defines the rate as the number of miners whose
    weights were received over the number of target miners, and 0 when
    there is no target miner. *)
Definition get_participation_rate (session : MergeSession) : float :=
  match size (target_miners session) with
  | O => 0%Q
  | Datatypes.S n => (Z.of_nat (size (weights_received session)) # Pos.of_succ_nat n)%Q
  end.

Definition optional_float (x : option float) : Value :=
  match x with
  | Some v => PyFloat v
  | None => PyNone
  end.

Definition len {A} (n : A → nat) (x : A) : Value := PyInt (Z.of_nat (n x)).

(** The dictionary appended to [recent_sessions] for one session. *)
Definition recent_session_entry (session : MergeSession) : Value :=
  PyDict [
    (PyStr "session_id", PyStr (session_id session));
    (PyStr "layer", PyInt (ms_layer session));
    (PyStr "status", PyStr (ms_status session));
    (PyStr "started_at", PyFloat (started_at session));
    (PyStr "completed_at", optional_float (completed_at session));
    (PyStr "duration", optional_float (get_session_duration session));
    (PyStr "participation_rate", PyFloat (get_participation_rate session));
    (PyStr "target_miners_count", len size (target_miners session));
    (PyStr "weights_received_count", len size (weights_received session));
    (PyStr "partitions_completed_count", len size (partitions_completed session))
  ].

(** The slice [xs[-n:]] for a positive [n]: all of a short list, else its
    last [n] elements. *)
Definition last_n {A} (n : nat) (xs : list A) : list A := drop (length xs - n) xs.

(** [for layer in range(N_LAYERS): layer_stats[layer] = get_merge_statistics(...)] *)
Fixpoint layer_statistics (layers : list Z) (time_window_seconds : Z)
  : M (list (Value * Value)) :=
  match layers with
  | [] => mret []
  | layer :: rest =>
      stats ← call (Call_get_merge_statistics (Some layer) time_window_seconds)
                   (Orch.get_merge_statistics orchestrator (Some layer) time_window_seconds);
      more ← layer_statistics rest time_window_seconds;
      mret ((PyInt layer, stats) :: more)
  end.

Definition truthy_bool (b : option bool) : bool := default false b.

Definition get_merge_performance_history
    (time_window_hours : option Z) (include_layer_breakdown : option bool) : M Response :=
  try_except
    (time_window_seconds ←
       match time_window_hours with
       | Some hours => mret (hours * 3600)
       | None => raise (PyError "TypeError"
                          "unsupported operand type(s) for *: 'NoneType' and 'int'")
       end;
     overall_stats ← call (Call_get_merge_statistics None time_window_seconds)
                          (Orch.get_merge_statistics orchestrator None time_window_seconds);
     layer_stats ←
       (if truthy_bool include_layer_breakdown
        then layer_statistics (seqZ 0 (Orch.N_LAYERS orchestrator)) time_window_seconds
        else mret []);
     active_sessions ← call Call_get_active_merge_sessions
                            (Orch.get_active_merge_sessions orchestrator);
     completed ← attr Call_completed_sessions (Orch.completed_sessions orchestrator);
     let recent_sessions := recent_session_entry <$> last_n 10 completed in
     mret (RespValue (PyDict [
       (PyStr "time_window_hours", from_option PyInt PyNone time_window_hours);
       (PyStr "overall_statistics", overall_stats);
       (PyStr "layer_statistics", PyDict layer_stats);
       (PyStr "active_sessions", active_sessions);
       (PyStr "recent_sessions", PyList recent_sessions);
       (PyStr "timestamp", PyFloat (time_time env))
     ])))
    except_500.

Definition get_historical_processing_times
    (time_window_hours : option Z) (include_layer_breakdown : option bool)
    (granularity : option string) : M Response :=
  try_except
    (v ← call (Call_get_historical_processing_times time_window_hours
                 include_layer_breakdown granularity)
              (Orch.get_historical_processing_times orchestrator time_window_hours
                 include_layer_breakdown granularity);
     mret (RespValue v))
    except_500.

Definition get_merge_session_timeline (time_window_hours : option Z) : M Response :=
  try_except
    (let time_window_hours := default 24 time_window_hours in
     v ← call (Call_get_merge_session_timeline time_window_hours)
              (Orch.get_merge_session_timeline orchestrator time_window_hours);
     mret (RespValue v))
    except_500.

Definition get_miners_grid_status : M Response :=
  try_except
    (v ← call Call_get_miners_grid_status (Orch.get_miners_grid_status orchestrator);
     mret (RespValue v))
    except_500.

Definition get_miner_detail (miner_hotkey : string) : M Response :=
  try_except
    (v ← call (Call_get_miner_detail miner_hotkey)
              (Orch.get_miner_detail orchestrator miner_hotkey);
     mret (RespValue v))
    except_500.

Definition get_miners_by_status (layer : option Z) : M Response :=
  try_except
    (v ← call (Call_get_miners_by_merge_status layer)
              (Orch.get_miners_by_merge_status orchestrator layer);
     mret (RespValue v))
    except_500.

(** ** The router: one request per route of [router] *)

Inductive Request :=
| GET_global_miner_weights
| POST_submit_miner_weights (weights : list (string * float)) (headers : EpistulaHeaders)
| POST_register (headers : EpistulaHeaders)
| POST_miners_status (status_update : MinerStatusUpdate) (headers : EpistulaHeaders)
| POST_miners_request_layer (headers : EpistulaHeaders)
| GET_healthcheck
| POST_miners_notify_weights_uploaded
    (weights_path metadata_path optimizer_state_path optimizer_state_metadata_path : string)
    (headers : EpistulaHeaders)
| POST_miners_notify_merged_partitions_uploaded (partitions : list Partition)
    (headers : EpistulaHeaders)
| GET_losses
| POST_miners_report_loss (loss_report : LossReportRequest) (headers : EpistulaHeaders)
| GET_is_merging (layer : Z)
| GET_get_chunks_for_miner (headers : EpistulaHeaders)
| POST_register_validator (host : string) (port : Z) (scheme : string) (headers : EpistulaHeaders)
| GET_metrics_miner_performance (miner_hotkey : string) (time_window_seconds : option Z)
| GET_metrics_layer_performance (layer : Z) (time_window_seconds : option Z)
| GET_metrics_dashboard
| GET_metrics_weight_merging_summary
| GET_metrics_active_merge_sessions
| GET_metrics_merge_performance_history
    (time_window_hours : option Z) (include_layer_breakdown : option bool)
| GET_metrics_historical_processing_times
    (time_window_hours : option Z) (include_layer_breakdown : option bool)
    (granularity : option string)
| GET_metrics_merge_session_timeline (time_window_hours : option Z)
| GET_metrics_miners_grid_status
| GET_metrics_miner_detail (miner_hotkey : string)
| GET_metrics_miners_by_status (layer : option Z).

Definition router (request : Request) : M Response :=
  match request with
  | GET_global_miner_weights => get_global_miner_weights
  | POST_submit_miner_weights weights headers => submit_miner_weights weights headers
  | POST_register headers => register_miner headers
  | POST_miners_status status_update headers => update_miner_status status_update headers
  | POST_miners_request_layer headers => request_layer headers
  | GET_healthcheck => healthcheck
  | POST_miners_notify_weights_uploaded wp mp op omp headers =>
      notify_weights_uploaded wp mp op omp headers
  | POST_miners_notify_merged_partitions_uploaded partitions headers =>
      notify_merged_partitions_uploaded partitions headers
  | GET_losses => get_all_losses
  | POST_miners_report_loss loss_report headers => report_loss loss_report headers
  | GET_is_merging layer => is_merging layer
  | GET_get_chunks_for_miner headers => get_chunks_for_miner headers
  | POST_register_validator host port scheme headers =>
      register_validator host port scheme headers
  | GET_metrics_miner_performance miner_hotkey window =>
      get_miner_performance miner_hotkey window
  | GET_metrics_layer_performance layer window => get_layer_performance layer window
  | GET_metrics_dashboard => get_real_time_dashboard
  | GET_metrics_weight_merging_summary => get_weight_merging_metrics_summary
  | GET_metrics_active_merge_sessions => get_active_merge_sessions
  | GET_metrics_merge_performance_history hours breakdown =>
      get_merge_performance_history hours breakdown
  | GET_metrics_historical_processing_times hours breakdown granularity =>
      get_historical_processing_times hours breakdown granularity
  | GET_metrics_merge_session_timeline hours => get_merge_session_timeline hours
  | GET_metrics_miners_grid_status => get_miners_grid_status
  | GET_metrics_miner_detail miner_hotkey => get_miner_detail miner_hotkey
  | GET_metrics_miners_by_status layer => get_miners_by_status layer
  end.

(** The Epistula headers of a request, for the routes that declare them. *)
Definition epistula_headers (request : Request) : option EpistulaHeaders :=
  match request with
  | POST_submit_miner_weights _ headers
  | POST_register headers
  | POST_miners_status _ headers
  | POST_miners_request_layer headers
  | POST_miners_notify_weights_uploaded _ _ _ _ headers
  | POST_miners_notify_merged_partitions_uploaded _ headers
  | POST_miners_report_loss _ headers
  | GET_get_chunks_for_miner headers
  | POST_register_validator _ _ _ headers => Some headers
  | _ => None
  end.

(** The routes whose handler opens with
    [logger.contextualize(layer=...get_miner_data(signed_by).layer, ...)]. *)
Definition miner_scoped (request : Request) : bool :=
  match request with
  | POST_miners_status _ _
  | POST_miners_request_layer _
  | POST_miners_notify_weights_uploaded _ _ _ _ _
  | POST_miners_notify_merged_partitions_uploaded _ _
  | POST_miners_report_loss _ _
  | GET_get_chunks_for_miner _ => true
  | _ => false
  end.

(** The body a route's handler has the signature verified over. *)
Definition signed_body (request : Request) : MessageBody :=
  match request with
  | POST_submit_miner_weights weights _ => BodyWeights weights
  | POST_miners_status status_update _ => BodyStatus status_update
  | POST_miners_notify_merged_partitions_uploaded partitions _ => BodyPartitions partitions
  | POST_miners_report_loss loss_report _ => BodyLoss loss_report
  | _ => BodyEmpty
  end.

End Handlers.

End api.

(** ** Reading a run *)

Section Runs.

Context {S A : Type}.

Definition outcome (run : Result A * S * list Event) : Result A := run.1.1.
Definition final_state (run : Result A * S * list Event) : S := run.1.2.
Definition trace (run : Result A * S * list Event) : list Event := run.2.

End Runs.

(** The orchestrator methods a trace invoked, in order. *)
Fixpoint calls (t : list Event) : list Call :=
  match t with
  | [] => []
  | EvCall c :: rest => c :: calls rest
  | _ :: rest => calls rest
  end.

(** Every method call in the trace comes after a signature verification that
    reported no error; [verified] says whether one was already seen. *)
Fixpoint guarded (verified : bool) (t : list Event) : bool :=
  match t with
  | [] => true
  | EvVerifySignature _ _ error :: rest => guarded (verified || negb (truthy error)) rest
  | EvCall _ :: rest => verified && guarded verified rest
  | _ :: rest => guarded verified rest
  end.

(** Whether the trace asked for the signer's entity type. *)
Definition checks_entity_type (t : list Event) : bool :=
  existsb (λ ev, match ev with EvVerifyEntityType _ _ => true | _ => false end) t.

(** Miners per layer in a registry. *)
Definition population (registry : gmap string MinerData) (layer : Z) : nat :=
  size (filter (λ entry, md_layer entry.2 = Some layer) registry).

(** ** Rate-limit keys *)

(** The request as the key functions of the rate limiters read it: the
    headers (Starlette's mapping view, names in lower case, one value per
    name) and [request.client.host], [None] when [request.client] is.
    Header values are Latin-1 text, one character per byte. *)
Record HttpRequest := {
  http_headers : gmap string string;
  http_client : option string;
}.

(** The Latin-1 characters [str.strip()] removes: the ones [str.isspace]
    accepts. *)
Definition whitespace : list N := [9; 10; 11; 12; 13; 28; 29; 30; 31; 32; 133; 160]%N.

Definition is_space (c : Ascii.ascii) : bool := existsb (N.eqb (Ascii.N_of_ascii c)) whitespace.

Definition is_comma (c : Ascii.ascii) : bool := N.eqb (Ascii.N_of_ascii c) 44.

(** [s.split(",")[0]] *)
Fixpoint first_field (s : string) : string :=
  match s with
  | EmptyString => EmptyString
  | String c rest => if is_comma c then EmptyString else String c (first_field rest)
  end.

(** [s.lstrip()] *)
Fixpoint lstrip (s : string) : string :=
  match s with
  | EmptyString => EmptyString
  | String c rest => if is_space c then lstrip rest else s
  end.

(** [s.rstrip()] *)
Fixpoint rstrip (s : string) : string :=
  match s with
  | EmptyString => EmptyString
  | String c rest =>
      match rstrip rest with
      | EmptyString => if is_space c then EmptyString else String c EmptyString
      | kept => String c kept
      end
  end.

(** [s.strip()] *)
Definition strip (s : string) : string := rstrip (lstrip s).

(** Truth value of a [str]. *)
Definition nonempty (s : string) : bool := negb (String.eqb s "").

Definition get_remote_address (request : HttpRequest) : string :=
  match http_headers request !! "x-forwarded-for" with
  | Some forwarded => strip (first_field forwarded)
  | None =>
      match http_client request with
      | Some host => if nonempty host then host else "127.0.0.1"
      | None => "127.0.0.1"
      end
  end.

Definition get_signed_by_key (request : HttpRequest) : string :=
  match http_headers request !! "epistula-signed-by" with
  | Some signer => if nonempty signer then signer else get_remote_address request
  | None => get_remote_address request
  end.

Definition first_char (s : string) : option Ascii.ascii :=
  match s with
  | EmptyString => None
  | String c _ => Some c
  end.

Fixpoint last_char (s : string) : option Ascii.ascii :=
  match s with
  | EmptyString => None
  | String c rest =>
      match last_char rest with
      | Some d => Some d
      | None => Some c
      end
  end.

Fixpoint has_comma (s : string) : bool :=
  match s with
  | EmptyString => false
  | String c rest => is_comma c || has_comma rest
  end.

(** A string [strip] would leave as it is. *)
Definition trimmed (s : string) : Prop :=
  (∀ c, first_char s = Some c → is_space c = false) ∧
  (∀ c, last_char s = Some c → is_space c = false).

(** ** The loss log *)

Module engine.

Record LossRecord := {
  loss_hotkey : string;
  loss_activation_uid : string;
  loss_timestamp : float;
  loss_value : float;
}.

(** An orchestrator state: the miner registry, the loss log with its
    latest-loss view, and, for the examples, a score table, the chain's view
    of the signers and the collector's completed sessions. *)
Record Store := {
  miners : gmap string MinerData;
  loss_records : list LossRecord;
  losses : gmap string float;
  scores : gmap string float;
  chain : gmap string EntityType;
  completed : list MergeSession;
}.

(** The orchestrator's error for an unknown miner.  The handlers of
    [api.py] answer [404 Miner not found] to an [IndexError] of the
    orchestrator, so that is the class of the error. *)
Definition NotFound (hotkey : string) : exn := IndexError ("Miner " ++ hotkey ++ " not found").

(** Modelled from the spec: [orchestrator.record_and_report_loss] is not in
    the source.  The spec: it appends a LossRecord keyed by hotkey,
    activation id and timestamp; it fails only if the hotkey is
    unregistered; several reports for one activation id are valid, and
    [losses] maps an activation id to its latest loss. *)
Definition record_and_report_loss (now : float) (hotkey activation_uid : string) (loss : float)
    (st : Store) : Result unit * Store :=
  match miners st !! hotkey with
  | None => (inl (NotFound hotkey), st)
  | Some _ =>
      (inr tt,
       {| miners := miners st;
          loss_records := loss_records st ++
            [{| loss_hotkey := hotkey; loss_activation_uid := activation_uid;
                loss_timestamp := now; loss_value := loss |}];
          losses := <[activation_uid := loss]> (losses st);
          scores := scores st;
          chain := chain st;
          completed := completed st |})
  end.

(** A loss report as a miner sends it. *)
Record Report := {
  rp_hotkey : string;
  rp_activation_uid : string;
  rp_loss : float;
}.

(** A sequence of reports, stopping at the first that fails. *)
Fixpoint report_all (now : float) (reports : list Report) (st : Store) : Result unit * Store :=
  match reports with
  | [] => (inr tt, st)
  | r :: rest =>
      match record_and_report_loss now (rp_hotkey r) (rp_activation_uid r) (rp_loss r) st with
      | (inl e, st1) => (inl e, st1)
      | (inr _, st1) => report_all now rest st1
      end
  end.

Definition record_of (now : float) (r : Report) : LossRecord :=
  {| loss_hotkey := rp_hotkey r; loss_activation_uid := rp_activation_uid r;
     loss_timestamp := now; loss_value := rp_loss r |}.

(** A report whose sender has a registry record. *)
Definition registered (st : Store) (r : Report) : Prop := is_Some (miners st !! rp_hotkey r).

End engine.

(** ** A concrete orchestrator and environment to run the handlers on *)

Module sample.

Import engine.

Definition set_scores (st : Store) (table : gmap string float) : Store :=
  {| miners := miners st; loss_records := loss_records st; losses := losses st;
     scores := table; chain := chain st; completed := completed st |}.

(** A stand-in for the orchestrator: the registry and the loss log are the
    ones of [engine]; a score submission overwrites the submitted keys; every
    other method answers with a fixed value and leaves the state alone. *)
Definition orchestrator (now : float) : Orch.t Store (gmap string EntityType) := {|
  Orch.get_all_miner_data := miners;
  Orch.no_miner := λ hotkey, PyError "KeyError" hotkey;
  Orch.metagraph := chain;
  Orch.N_LAYERS := 2;
  Orch.get_global_miner_scores := λ st, (inr (map_to_list (scores st)), st);
  Orch.submit_miner_scores := λ weights st,
    (inr tt, set_scores st (list_to_map weights ∪ scores st));
  Orch.register := λ _ st, (inr None, st);
  Orch.update_status := λ _ _ _ _ st, (inr tt, st);
  Orch.request_layer := λ st, (inr 0, st);
  Orch.notify_weights_uploaded := λ _ _ _ _ _ st, (inr false, st);
  Orch.notify_merged_partitions_uploaded := λ _ _ st, (inr tt, st);
  Orch.losses := λ st, map_to_list (losses st);
  Orch.record_and_report_loss := record_and_report_loss now;
  Orch.is_merging := λ _ st, (inr ("active", 2), st);
  Orch.get_chunks_for_miner := λ _ st, (inr ([], []), st);
  Orch.register_validator := λ _ _ _ _ st, (inr true, st);
  Orch.get_miner_performance_metrics := λ _ _ st, (inr PyNone, st);
  Orch.get_layer_performance_metrics := λ _ _ st, (inr PyNone, st);
  Orch.get_real_time_performance_dashboard := λ st, (inr PyNone, st);
  Orch.get_weight_merging_metrics_summary := λ st, (inr PyNone, st);
  Orch.get_active_merge_sessions := λ st, (inr (PyList []), st);
  Orch.get_merge_statistics := λ _ _ st, (inr PyNone, st);
  Orch.completed_sessions := completed;
  Orch.get_historical_processing_times := λ _ _ _ st, (inr PyNone, st);
  Orch.get_merge_session_timeline := λ _ st, (inr PyNone, st);
  Orch.get_miners_grid_status := λ st, (inr PyNone, st);
  Orch.get_miner_detail := λ _ st, (inr PyNone, st);
  Orch.get_miners_by_merge_status := λ _ st, (inr PyNone, st);
|}.

(** An environment: a signature verifies when the request carries the
    signature text [good]; the chain knows each signer's entity type. *)
Definition env (bittensor : bool) (now : float) : Env (gmap string EntityType) := {|
  BITTENSOR := bittensor;
  verify_signature_v2 := λ headers _ _,
    if String.eqb (request_signature headers) "good" then None else Some "Signature mismatch";
  verify_entity_type := λ signer mg required_type,
    match mg !! signer with
    | Some miner => match required_type with miner => inr 1 | validator => inl (HTTPException 403 "Not a validator") end
    | Some validator => match required_type with validator => inr 2 | miner => inl (HTTPException 403 "Not a miner") end
    | None => inl (HTTPException 403 "Unknown hotkey")
    end;
  time_time := now;
|}.

Definition headers (signer signature : string) : EpistulaHeaders :=
  {| version := "2"; timestamp := "1700000000"; uuid := "u"; signed_by := signer;
     request_signature := signature |}.

Definition miner_on (hotkey : string) (layer : Z) : MinerData :=
  {| md_hotkey := hotkey; md_layer := Some layer; md_status := "IDLE" |}.

(** Miners A (layer 0) and B (layer 1); validators V1 and V2, who are on the
    chain but not in the miner registry; and D, who has a miner record from
    an earlier registration and is a validator on the chain now. *)
Definition store : Store := {|
  miners := <["A" := miner_on "A" 0]> (<["B" := miner_on "B" 1]> (<["D" := miner_on "D" 0]> ∅));
  loss_records := [];
  losses := ∅;
  scores := ∅;
  chain := <["A" := miner]> (<["B" := miner]> (<["D" := validator]>
             (<["V1" := validator]> (<["V2" := validator]> ∅))));
  completed := [];
|}.

(** A completed session on layer 0 with targets A and D, where only A's
    weights arrived. *)
Definition session (id : string) (started : Z) : MergeSession := {|
  session_id := id;
  ms_layer := 0;
  ms_status := "completed";
  started_at := inject_Z started;
  completed_at := Some (inject_Z (started + 60));
  target_miners := {["A"; "D"]};
  weights_received := {["A"]};
  partitions_completed := {[(0, 0, "A"); (0, 1, "A")]};
|}.

(** The same store after twelve sessions have completed. *)
Definition busy_store : Store := {|
  miners := miners store;
  loss_records := [];
  losses := ∅;
  scores := ∅;
  chain := chain store;
  completed := (λ n, session (pretty n) (1700000000 + 100 * n)) <$> seqZ 1 12;
|}.

Definition now : float := 1700000000%Q.

(** The sample orchestrator, and the environment with the entity-type check
    enabled ([gated]) and disabled ([open]). *)
Definition orch : Orch.t Store (gmap string EntityType) := orchestrator now.
Definition gated : Env (gmap string EntityType) := env true now.
Definition open : Env (gmap string EntityType) := env false now.

Definition run (bittensor : bool) (request : api.Request) (st : Store) :=
  api.router orch (env bittensor now) request st.

(** Requests for the examples. *)
Definition good (signer : string) : EpistulaHeaders := headers signer "good".
Definition forged (signer : string) : EpistulaHeaders := headers signer "forged".

Definition nine_tenths : list (string * float) := [("A", (9 # 10)%Q)].
Definition seven_tenths : list (string * float) := [("A", (7 # 10)%Q)].

Definition training : MinerStatusUpdate :=
  {| su_status := "TRAINING"; su_activation_uid := None; su_activation_path := None |}.

Definition two_sections : list Partition :=
  [{| p_layer := 0; p_section := 0; p_hotkey := "D" |};
   {| p_layer := 0; p_section := 1; p_hotkey := "D" |}].

Definition twice : list Report :=
  [{| rp_hotkey := "A"; rp_activation_uid := "a1"; rp_loss := (5 # 2)%Q |};
   {| rp_hotkey := "A"; rp_activation_uid := "a1"; rp_loss := (9 # 4)%Q |}].

Definition one_loss : LossReportRequest :=
  {| lr_activation_uid := "a1"; lr_loss_value := (5 # 2)%Q |}.

(** Requests as the rate limiters see them: one that came through a proxy,
    one that came directly, one that names its signer. *)
Definition proxied : HttpRequest :=
  {| http_headers := <["x-forwarded-for" := " 203.0.113.7 , 10.0.0.1"]> ∅;
     http_client := Some "10.0.0.9" |}.

Definition direct : HttpRequest :=
  {| http_headers := ∅; http_client := Some "198.51.100.4" |}.

Definition signed_request : HttpRequest :=
  {| http_headers := <["epistula-signed-by" := "A"]> (<["x-forwarded-for" := "203.0.113.7"]> ∅);
     http_client := None |}.

(** The sample orchestrator with a collector that is down: the miners grid
    raises. *)
Definition failing : Orch.t Store (gmap string EntityType) := {|
  Orch.get_all_miner_data := Orch.get_all_miner_data orch;
  Orch.no_miner := Orch.no_miner orch;
  Orch.metagraph := Orch.metagraph orch;
  Orch.N_LAYERS := Orch.N_LAYERS orch;
  Orch.get_global_miner_scores := Orch.get_global_miner_scores orch;
  Orch.submit_miner_scores := Orch.submit_miner_scores orch;
  Orch.register := Orch.register orch;
  Orch.update_status := Orch.update_status orch;
  Orch.request_layer := Orch.request_layer orch;
  Orch.notify_weights_uploaded := Orch.notify_weights_uploaded orch;
  Orch.notify_merged_partitions_uploaded := Orch.notify_merged_partitions_uploaded orch;
  Orch.losses := Orch.losses orch;
  Orch.record_and_report_loss := Orch.record_and_report_loss orch;
  Orch.is_merging := Orch.is_merging orch;
  Orch.get_chunks_for_miner := Orch.get_chunks_for_miner orch;
  Orch.register_validator := Orch.register_validator orch;
  Orch.get_miner_performance_metrics := Orch.get_miner_performance_metrics orch;
  Orch.get_layer_performance_metrics := Orch.get_layer_performance_metrics orch;
  Orch.get_real_time_performance_dashboard := Orch.get_real_time_performance_dashboard orch;
  Orch.get_weight_merging_metrics_summary := Orch.get_weight_merging_metrics_summary orch;
  Orch.get_active_merge_sessions := Orch.get_active_merge_sessions orch;
  Orch.get_merge_statistics := Orch.get_merge_statistics orch;
  Orch.completed_sessions := Orch.completed_sessions orch;
  Orch.get_historical_processing_times := Orch.get_historical_processing_times orch;
  Orch.get_merge_session_timeline := Orch.get_merge_session_timeline orch;
  Orch.get_miners_grid_status := λ st, (inl (PyError "RuntimeError" "collector unavailable"), st);
  Orch.get_miner_detail := Orch.get_miner_detail orch;
  Orch.get_miners_by_merge_status := Orch.get_miners_by_merge_status orch;
|}.

End sample.

(** ** Answers and dictionaries *)

(** The answer to an accepted score submission. *)
Definition submitted : Response := RespValue (api.message "Miner weights submitted successfully").

(** The answer to an admitted weights notification, read off the
    orchestrator's [notify_weights_uploaded]. *)
Definition weights_answer (r : Result bool) : Result Response :=
  match r with
  | inr success =>
      inr (RespValue (PyDict [(PyStr "message", PyStr "Weights notification processed successfully");
                              (PyStr "success", PyBool success)]))
  | inl (IndexError _) => inl (HTTPException 404 "Miner not found")
  | inl e => inl e
  end.

(** The answer to an admitted loss report, read off the orchestrator's
    [record_and_report_loss]. *)
Definition loss_answer (signer : string) (loss_report : LossReportRequest) (now : float)
    (r : Result unit) : Result Response :=
  match r with
  | inr _ => inr (RespLoss {| resp_hotkey := signer;
                              resp_activation_uid := lr_activation_uid loss_report;
                              resp_loss_value := lr_loss_value loss_report;
                              resp_timestamp := now |})
  | inl e => inl (HTTPException 500 (str_exn e))
  end.

(** The answer to an admitted layer request, read off the orchestrator's
    [request_layer] alone. *)
Definition layer_answer (r : Result Z) : Result Response :=
  match r with
  | inr layer => inr (RespLayer {| la_layer := layer |})
  | inl (IndexError _) => inl (HTTPException 404 "Miner not found")
  | inl e => inl e
  end.

(** Reading a Python dictionary at a string key. *)
Definition is_key (key : string) (v : Value) : bool :=
  match v with
  | PyStr k => String.eqb k key
  | _ => false
  end.

Definition dict_get (key : string) (v : Value) : option Value :=
  match v with
  | PyDict items => snd <$> find (λ item, is_key key item.1) items
  | _ => None
  end.

Definition dict_keys (v : Value) : list Value :=
  match v with
  | PyDict items => fst <$> items
  | _ => []
  end.

Definition recent_session_keys : list Value :=
  PyStr <$> ["session_id"; "layer"; "status"; "started_at"; "completed_at"; "duration";
             "participation_rate"; "target_miners_count"; "weights_received_count";
             "partitions_completed_count"].

(** An orchestrator method that only reads. *)
Definition leaves_state {S A} (method : S → Result A * S) : Prop := ∀ s, (method s).2 = s.

(** An orchestrator method that does not raise. *)
Definition returns {S A} (method : S → Result A * S) : Prop := ∀ s, ∃ a, (method s).1 = inr a.

(** ** When a request is let through *)

(** The verifier reported no error (none that [if error:] would see). *)
Definition signature_ok {MG} (env : Env MG) (headers : EpistulaHeaders) (body : MessageBody) : bool :=
  negb (truthy (verify_signature_v2 env headers body (time_time env))).

(** The entity-type check, where the deployment runs it, accepts the signer. *)
Definition entity_type_ok {S MG} (o : Orch.t S MG) (env : Env MG)
    (signer : string) (required_type : EntityType) (s : S) : bool :=
  if BITTENSOR env
  then match verify_entity_type env signer (Orch.metagraph o s) required_type with
       | inr _ => true
       | inl _ => false
       end
  else true.

(** ** Routes by what their handler does *)

(** The entity type a route's handler asks the chain for, where
    [settings.BITTENSOR] is set. *)
Definition required_entity (request : api.Request) : option EntityType :=
  match request with
  | api.POST_submit_miner_weights _ _
  | api.POST_register_validator _ _ _ _ => Some validator
  | api.POST_register _
  | api.POST_miners_status _ _
  | api.POST_miners_request_layer _
  | api.POST_miners_notify_weights_uploaded _ _ _ _ _
  | api.POST_miners_report_loss _ _
  | api.GET_get_chunks_for_miner _ => Some miner
  | _ => None
  end.

(** What leaves the handler when it raises [e] while admitting the request:
    [e] itself, except in register_miner, whose [except Exception] replaces
    it. *)
Definition rejection (request : api.Request) (e : exn) : exn :=
  match request with
  | api.POST_register _ => HTTPException 409 "Failed to register miner"
  | _ => e
  end.

(** The signer has a registry record, on the routes that look it up. *)
Definition has_record {S MG} (o : Orch.t S MG) (request : api.Request) (s : S) : bool :=
  match api.epistula_headers request with
  | Some headers =>
      if api.miner_scoped request
      then bool_decide (is_Some (Orch.get_all_miner_data o s !! signed_by headers))
      else true
  | None => true
  end.

Definition is_call (ev : Event) : bool :=
  match ev with
  | EvCall _ => true
  | _ => false
  end.

(** Every entity-type check in the trace comes after a signature
    verification that reported no error. *)
Fixpoint entity_guarded (verified : bool) (t : list Event) : bool :=
  match t with
  | [] => true
  | EvVerifySignature _ _ error :: rest => entity_guarded (verified || negb (truthy error)) rest
  | EvVerifyEntityType _ _ :: rest => verified && entity_guarded verified rest
  | _ :: rest => entity_guarded verified rest
  end.

(** The event is no entity-type check, or it checks the request's signer
    for the type the route requires. *)
Definition asks_entity (request : api.Request) (ev : Event) : Prop :=
  match ev with
  | EvVerifyEntityType signer required_type =>
      signed_by <$> api.epistula_headers request = Some signer ∧
      required_entity request = Some required_type
  | _ => True
  end.

Definition is_history (request : api.Request) : bool :=
  match request with
  | api.GET_metrics_merge_performance_history _ _ => true
  | _ => false
  end.

(** The metrics routes whose handler body sits in [try ... except Exception]. *)
Definition wrapped (request : api.Request) : bool :=
  match request with
  | api.GET_metrics_merge_performance_history _ _
  | api.GET_metrics_historical_processing_times _ _ _
  | api.GET_metrics_merge_session_timeline _
  | api.GET_metrics_miners_grid_status
  | api.GET_metrics_miner_detail _
  | api.GET_metrics_miners_by_status _ => true
  | _ => false
  end.

(** The answers to admitted requests, read off the orchestrator's result. *)
Definition register_answer (signer : string) (r : Result (option Z)) : Result Response :=
  match r with
  | inr (Some layer) => inr (RespRegistration {| reg_hotkey := signer; reg_layer := Some layer |})
  | _ => inl (HTTPException 409 "Failed to register miner")
  end.

Definition status_answer (r : Result unit) : Result Response :=
  match r with
  | inr _ => inr (RespValue (api.message "Status updated successfully"))
  | inl (IndexError _) => inl (HTTPException 404 "Miner not found")
  | inl e => inl e
  end.

Definition chunks_answer (r : Result (list Value * list Z)) : Result Response :=
  match r with
  | inr (chunks, indices) => inr (RespChunks chunks indices)
  | inl e => inl e
  end.

Definition validator_answer (r : Result bool) : Result Response :=
  match r with
  | inr true => inr (RespValue (api.message "Validator registered successfully"))
  | inr false => inl (HTTPException 400 "Validator registration failed")
  | inl e => inl e
  end.

(** ** What a call does to the orchestrator *)

(** A method's result without its value: the exception it raised, if any,
    and the state it left. *)
Definition status {S A} (r : Result A * S) : option exn * S :=
  (match r.1 with inl e => Some e | inr _ => None end, r.2).

(** The method behind a call, run on a state.  Reading an attribute raises
    nothing and leaves the state. *)
Definition perform {S MG} (o : Orch.t S MG) (c : Call) (s : S) : option exn * S :=
  match c with
  | Call_get_global_miner_scores => status (Orch.get_global_miner_scores o s)
  | Call_submit_miner_scores weights => status (Orch.submit_miner_scores o weights s)
  | Call_register hotkey => status (Orch.register o hotkey s)
  | Call_update_status hotkey st uid path => status (Orch.update_status o hotkey st uid path s)
  | Call_request_layer => status (Orch.request_layer o s)
  | Call_notify_weights_uploaded hotkey wp mp op omp =>
      status (Orch.notify_weights_uploaded o hotkey wp mp op omp s)
  | Call_notify_merged_partitions_uploaded hotkey partitions =>
      status (Orch.notify_merged_partitions_uploaded o hotkey partitions s)
  | Call_losses => (None, s)
  | Call_record_and_report_loss hotkey uid loss =>
      status (Orch.record_and_report_loss o hotkey uid loss s)
  | Call_is_merging layer => status (Orch.is_merging o layer s)
  | Call_get_chunks_for_miner hotkey => status (Orch.get_chunks_for_miner o hotkey s)
  | Call_register_validator hotkey host port scheme =>
      status (Orch.register_validator o hotkey host port scheme s)
  | Call_get_miner_performance_metrics hotkey window =>
      status (Orch.get_miner_performance_metrics o hotkey window s)
  | Call_get_layer_performance_metrics layer window =>
      status (Orch.get_layer_performance_metrics o layer window s)
  | Call_get_real_time_performance_dashboard =>
      status (Orch.get_real_time_performance_dashboard o s)
  | Call_get_weight_merging_metrics_summary =>
      status (Orch.get_weight_merging_metrics_summary o s)
  | Call_get_active_merge_sessions => status (Orch.get_active_merge_sessions o s)
  | Call_get_merge_statistics layer window => status (Orch.get_merge_statistics o layer window s)
  | Call_completed_sessions => (None, s)
  | Call_get_historical_processing_times hours breakdown granularity =>
      status (Orch.get_historical_processing_times o hours breakdown granularity s)
  | Call_get_merge_session_timeline hours => status (Orch.get_merge_session_timeline o hours s)
  | Call_get_miners_grid_status => status (Orch.get_miners_grid_status o s)
  | Call_get_miner_detail hotkey => status (Orch.get_miner_detail o hotkey s)
  | Call_get_miners_by_merge_status layer => status (Orch.get_miners_by_merge_status o layer s)
  end.

(** The state a sequence of calls leaves, each made on the state the one
    before it left. *)
Definition replay {S MG} (o : Orch.t S MG) (cs : list Call) (s : S) : S :=
  foldl (λ st c, (perform o c st).2) s cs.

#[global] Arguments replay : simpl never.

(** Modelled from the spec: the collector's [get_merge_statistics] and the
    orchestrator's [get_active_merge_sessions] are not in the source.  The
    spec (4.5) has every read of the metrics store a pure aggregation over a
    time window by which no data is ever deleted: the two methods leave the
    state as it is. *)
Definition collector_reads_only {S MG} (o : Orch.t S MG) : Prop :=
  (∀ layer window, leaves_state (Orch.get_merge_statistics o layer window)) ∧
  leaves_state (Orch.get_active_merge_sessions o).

(** The calls the merge performance history is made of. *)
Definition is_collector_read (c : Call) : bool :=
  match c with
  | Call_get_merge_statistics _ _
  | Call_get_active_merge_sessions
  | Call_completed_sessions => true
  | _ => false
  end.

(** What an entry of [recent_sessions] has to say about its session: the
    ten keys, and under each the session's value. *)
Definition reports (session : MergeSession) (entry : Value) : Prop :=
  dict_keys entry = recent_session_keys ∧
  dict_get "session_id" entry = Some (PyStr (session_id session)) ∧
  dict_get "layer" entry = Some (PyInt (ms_layer session)) ∧
  dict_get "status" entry = Some (PyStr (ms_status session)) ∧
  dict_get "started_at" entry = Some (PyFloat (started_at session)) ∧
  dict_get "completed_at" entry =
    Some (match completed_at session with Some ended => PyFloat ended | None => PyNone end) ∧
  dict_get "duration" entry =
    Some (match completed_at session with
          | Some ended => PyFloat (ended - started_at session)%Q
          | None => PyNone
          end) ∧
  dict_get "participation_rate" entry =
    Some (PyFloat (match size (target_miners session) with
                   | O => 0%Q
                   | Datatypes.S n =>
                       (Z.of_nat (size (weights_received session)) # Pos.of_succ_nat n)%Q
                   end)) ∧
  dict_get "target_miners_count" entry = Some (PyInt (Z.of_nat (size (target_miners session)))) ∧
  dict_get "weights_received_count" entry =
    Some (PyInt (Z.of_nat (size (weights_received session)))) ∧
  dict_get "partitions_completed_count" entry =
    Some (PyInt (Z.of_nat (size (partitions_completed session)))).

(** ** Accesses to the orchestrator *)

Definition is_verification (ev : Event) : bool :=
  match ev with
  | EvVerifySignature _ _ _ => true
  | _ => false
  end.

Definition is_registry_read (ev : Event) : bool :=
  match ev with
  | EvGetMinerData _ | EvGetAllMinerData => true
  | _ => false
  end.

Definition is_entity_check (ev : Event) : bool :=
  match ev with
  | EvVerifyEntityType _ _ => true
  | _ => false
  end.

(** The registry lookup by which the handler of a miner-scoped route gets
    the signer's layer for its log context. *)
Definition log_context_lookup (request : api.Request) (ev : Event) : bool :=
  match ev, api.epistula_headers request with
  | EvGetMinerData hotkey, Some headers =>
      api.miner_scoped request && String.eqb hotkey (signed_by headers)
  | _, _ => false
  end.

(** Every access to the orchestrator in the trace (a registry read, the
    metagraph read of an entity-type check, a method call or attribute read)
    that is not exempt comes after a signature verification that reported no
    error; [verified] says whether one was already seen. *)
Fixpoint accesses_guarded (exempt : Event → bool) (verified : bool) (t : list Event) : bool :=
  match t with
  | [] => true
  | EvVerifySignature _ _ error :: rest =>
      accesses_guarded exempt (verified || negb (truthy error)) rest
  | ev :: rest => (exempt ev || verified) && accesses_guarded exempt verified rest
  end.

(** The metrics routes with a [try] and a time window to work with. *)
Definition window_given (request : api.Request) : bool :=
  match request with
  | api.GET_metrics_merge_performance_history None _ => false
  | _ => true
  end.

(** The event is no verification, or it is the verification of these
    headers over this body. *)
Definition verifies {MG} (env : Env MG) (headers : EpistulaHeaders) (body : MessageBody)
    (ev : Event) : Prop :=
  match ev with
  | EvVerifySignature signer body' error =>
      signer = signed_by headers ∧ body' = body ∧
      error = verify_signature_v2 env headers body (time_time env)
  | _ => True
  end.

(** * Properties of the handlers *)

(** Unfolds a handler down to the collaborators it consults. *)
Ltac unfold_handler :=
  unfold api.router, api.get_global_miner_weights, api.submit_miner_weights,
    api.register_miner, api.update_miner_status, api.request_layer, api.healthcheck,
    api.notify_weights_uploaded, api.notify_merged_partitions_uploaded,
    api.get_all_losses, api.report_loss, api.is_merging, api.get_chunks_for_miner,
    api.register_validator, api.get_miner_performance, api.get_layer_performance,
    api.get_real_time_dashboard, api.get_weight_merging_metrics_summary,
    api.get_active_merge_sessions, api.get_historical_processing_times,
    api.get_merge_session_timeline, api.get_miners_grid_status, api.get_miner_detail,
    api.get_miners_by_status,
    api.contextualize_layer, api.verify_signature, api.raise_if_error,
    api.if_BITTENSOR, api.check_entity_type, api.try_except, api.except_IndexError,
    api.except_500, api.call, api.attr, api.raise, Orch.get_miner_data,
    mbind, api.M_bind, mret, api.M_ret,
    outcome, final_state, trace in *.

(** Case analysis on everything a handler consults, one collaborator at a
    time. *)
Ltac consult :=
  repeat (simpl in *;
          match goal with
          | |- context [verify_signature_v2 ?e ?h ?b ?t] =>
              destruct (verify_signature_v2 e h b t) as [?msg|] eqn:?
          | |- context [String.eqb ?m ""] => destruct (String.eqb m "") eqn:?
          | |- context [BITTENSOR ?e] => destruct (BITTENSOR e) eqn:?
          | |- context [verify_entity_type ?e ?a ?b ?c] =>
              destruct (verify_entity_type e a b c) as [?e|?uid] eqn:?
          | |- context [Orch.get_all_miner_data ?x ?s !! ?k] =>
              destruct (Orch.get_all_miner_data x s !! k) as [?data|] eqn:?
          end);
  simpl in *.

Section Facts.

Context {S MG : Type}.
Variable o : Orch.t S MG.
Variable env : Env MG.

(** Running a sequence: the first part, then the rest on the state it left,
    the traces in order. *)
Lemma run_bind {A B} (m : api.M A) (k : A → api.M B) (s : S) :
  (m ≫= k) s =
  match m s with
  | (inl e, s1, t1) => (inl e, s1, t1)
  | (inr a, s1, t1) => match k a s1 with (r, s2, t2) => (r, s2, (t1 ++ t2)%list) end
  end.
Proof. reflexivity. Qed.

(** A handler that opens with the log-context lookup. *)
Lemma run_contextualize {B} (signer : string) (k : option Z → api.M B) (s : S) :
  (api.contextualize_layer o signer ≫= k) s =
  match Orch.get_all_miner_data o s !! signer with
  | None => (inl (Orch.no_miner o signer), s, [EvGetMinerData signer])
  | Some data =>
      match k (md_layer data) s with
      | (r, s2, t2) => (r, s2, EvGetMinerData signer :: t2)
      end
  end.
Proof.
  rewrite run_bind. unfold api.contextualize_layer, Orch.get_miner_data.
  destruct (Orch.get_all_miner_data o s !! signer); [|reflexivity].
  destruct (k _ s) as [[r s2] t2]. reflexivity.
Qed.

(** The handler of a miner-scoped route is the lookup followed by the rest. *)
Lemma miner_scoped_shape (request : api.Request) (headers : EpistulaHeaders) :
  api.miner_scoped request = true →
  api.epistula_headers request = Some headers →
  ∃ k : option Z → api.M Response,
    api.router o env request = api.contextualize_layer o (signed_by headers) ≫= k.
Proof.
  intros Hscoped Hheaders.
  destruct request; simpl in Hscoped; try discriminate; simpl in Hheaders;
    injection Hheaders as <-; simpl; eexists; reflexivity.
Qed.

(** An unregistered signer never gets past the lookup of a miner-scoped
    route: the registry's exception leaves the handler as it is. *)
Lemma miner_scoped_unregistered (request : api.Request) (headers : EpistulaHeaders) (s : S) :
  api.miner_scoped request = true →
  api.epistula_headers request = Some headers →
  Orch.get_all_miner_data o s !! signed_by headers = None →
  api.router o env request s =
    (inl (Orch.no_miner o (signed_by headers)), s, [EvGetMinerData (signed_by headers)]).
Proof.
  intros Hscoped Hheaders Hnone.
  destruct (miner_scoped_shape request headers Hscoped Hheaders) as [k ->].
  rewrite run_contextualize, Hnone. reflexivity.
Qed.

(** The lookup is the first thing a miner-scoped handler does. *)
Lemma miner_scoped_first_event (request : api.Request) (headers : EpistulaHeaders) (s : S) :
  api.miner_scoped request = true →
  api.epistula_headers request = Some headers →
  ∃ rest, trace (api.router o env request s) = EvGetMinerData (signed_by headers) :: rest.
Proof.
  intros Hscoped Hheaders.
  destruct (miner_scoped_shape request headers Hscoped Hheaders) as [k ->].
  rewrite run_contextualize.
  destruct (Orch.get_all_miner_data o s !! signed_by headers).
  - destruct (k _ s) as [[r s2] t2]. eexists. reflexivity.
  - eexists. reflexivity.
Qed.

Lemma signature_ok_true (headers : EpistulaHeaders) (body : MessageBody) :
  signature_ok env headers body = true →
  truthy (verify_signature_v2 env headers body (time_time env)) = false.
Proof. unfold signature_ok. by intros ?%negb_true_iff. Qed.

(** *** Registration *)

(** A signer who already has a record: nothing is invoked, nothing changes,
    and an admitted request is answered with the layer on record. *)
Lemma register_known (headers : EpistulaHeaders) (s : S) (data : MinerData) :
  Orch.get_all_miner_data o s !! signed_by headers = Some data →
  let run := api.router o env (api.POST_register headers) s in
  final_state run = s ∧
  calls (trace run) = [] ∧
  (signature_ok env headers BodyEmpty = true →
   entity_type_ok o env (signed_by headers) miner s = true →
   outcome run = inr (RespRegistration {| reg_hotkey := signed_by headers;
                                          reg_layer := md_layer data |})).
Proof.
  intros Hknown. unfold signature_ok, entity_type_ok. unfold_handler. simpl.
  destruct (verify_signature_v2 env headers BodyEmpty (time_time env)) as [msg|];
    simpl; [destruct (String.eqb msg ""); simpl|].
  all: destruct (BITTENSOR env); simpl.
  all: try (destruct (verify_entity_type _ _ _ _); simpl).
  all: rewrite ?Hknown; simpl.
  all: repeat split; try reflexivity; discriminate.
Qed.

(** C3. Registering again is idempotent: for a hotkey that already has a
    record in the miner registry, the register handler does not invoke the
    orchestrator's registration, leaves the orchestrator state (so the
    registry and every layer's population) as it was, and answers an admitted
    request with the layer on record. *)
Theorem register_is_idempotent (headers : EpistulaHeaders) (s : S) (data : MinerData) :
  Orch.get_all_miner_data o s !! signed_by headers = Some data →
  let run := api.router o env (api.POST_register headers) s in
  calls (trace run) = [] ∧
  final_state run = s ∧
  Orch.get_all_miner_data o (final_state run) = Orch.get_all_miner_data o s ∧
  (∀ layer, population (Orch.get_all_miner_data o (final_state run)) layer =
            population (Orch.get_all_miner_data o s) layer) ∧
  (signature_ok env headers BodyEmpty = true →
   entity_type_ok o env (signed_by headers) miner s = true →
   outcome run = inr (RespRegistration {| reg_hotkey := signed_by headers;
                                          reg_layer := md_layer data |})).
Proof.
  intros Hknown run.
  destruct (register_known headers s data Hknown) as (Hstate & Hcalls & Hanswer).
  fold run in Hstate, Hcalls, Hanswer.
  split; [exact Hcalls|]. split; [exact Hstate|].
  rewrite Hstate. split; [reflexivity|]. split; [reflexivity|]. exact Hanswer.
Qed.

(** A register request whose signature does not verify: the 401 raised
    inside the [try] is caught by [except Exception] and replaced. *)
Lemma register_bad_signature (headers : EpistulaHeaders) (s : S) :
  signature_ok env headers BodyEmpty = false →
  api.router o env (api.POST_register headers) s =
    (inl (HTTPException 409 "Failed to register miner"), s,
     [EvVerifySignature (signed_by headers) BodyEmpty
        (verify_signature_v2 env headers BodyEmpty (time_time env))]).
Proof.
  unfold signature_ok. unfold_handler. simpl.
  destruct (verify_signature_v2 env headers BodyEmpty (time_time env)) as [msg|];
    simpl; [destruct (String.eqb msg ""); simpl|]; intros Hbad;
    try discriminate; reflexivity.
Qed.

(** A register request that verifies, from a new signer, where the
    orchestrator assigns no layer. *)
Lemma register_no_layer (headers : EpistulaHeaders) (s s' : S) :
  signature_ok env headers BodyEmpty = true →
  entity_type_ok o env (signed_by headers) miner s = true →
  Orch.get_all_miner_data o s !! signed_by headers = None →
  Orch.register o (signed_by headers) s = (inr None, s') →
  outcome (api.router o env (api.POST_register headers) s) =
    inl (HTTPException 409 "Failed to register miner").
Proof.
  unfold signature_ok, entity_type_ok. unfold_handler. simpl.
  intros Hsig Hentity Hnew Hregister.
  destruct (verify_signature_v2 env headers BodyEmpty (time_time env)) as [msg|];
    simpl in *; [destruct (String.eqb msg ""); simpl in *; try discriminate|].
  all: destruct (BITTENSOR env); simpl.
  all: try (destruct (verify_entity_type _ _ _ _); simpl; try discriminate).
  all: rewrite Hnew, Hregister; reflexivity.
Qed.

(** C2. The register handler reports an invalid signature as a failed
    registration: the answer is [409 Failed to register miner], the very
    answer given when the orchestrator assigns no layer, and not the 401 the
    handler raises for the verification error. *)
Theorem register_invalid_signature_is_409 (headers : EpistulaHeaders) (s : S) :
  signature_ok env headers BodyEmpty = false →
  let run := api.router o env (api.POST_register headers) s in
  outcome run = inl (HTTPException 409 "Failed to register miner") ∧
  (∀ detail, outcome run ≠ inl (HTTPException 401 detail)) ∧
  final_state run = s ∧
  calls (trace run) = [].
Proof.
  intros Hbad run. unfold run. rewrite (register_bad_signature headers s Hbad).
  repeat split. intros detail. discriminate.
Qed.

(** C4. notify_weights_uploaded from a hotkey without a registry record:
    the lookup made for the log context raises before the [try] is entered,
    so what leaves the handler is the registry's own exception and not
    [404 Miner not found], whatever the signature; the orchestrator is not
    invoked. *)
Theorem notify_weights_uploaded_unregistered
    (weights_path metadata_path optimizer_state_path optimizer_state_metadata_path : string)
    (headers : EpistulaHeaders) (s : S) :
  Orch.get_all_miner_data o s !! signed_by headers = None →
  let run := api.router o env
               (api.POST_miners_notify_weights_uploaded weights_path metadata_path
                  optimizer_state_path optimizer_state_metadata_path headers) s in
  outcome run = inl (Orch.no_miner o (signed_by headers)) ∧
  trace run = [EvGetMinerData (signed_by headers)] ∧
  (∀ msg, Orch.no_miner o (signed_by headers) = IndexError msg →
          outcome run ≠ inl (HTTPException 404 "Miner not found")).
Proof.
  intros Hnone run. unfold run.
  rewrite (miner_scoped_unregistered
             (api.POST_miners_notify_weights_uploaded weights_path metadata_path
                optimizer_state_path optimizer_state_metadata_path headers)
             headers s eq_refl eq_refl Hnone).
  repeat split. intros msg ->. discriminate.
Qed.

(** C9. Every miner-scoped handler looks the signer up in the registry
    first, before the signature is verified; when the signer has no record
    the registry's exception leaves the handler unchanged, with no
    verification made and no orchestrator method invoked, whether or not the
    signature would have verified, and it is not turned into
    [404 Miner not found]. *)
Theorem miner_scoped_lookup_precedes_verification
    (request : api.Request) (headers : EpistulaHeaders) (s : S) :
  api.miner_scoped request = true →
  api.epistula_headers request = Some headers →
  let run := api.router o env request s in
  (∃ rest, trace run = EvGetMinerData (signed_by headers) :: rest) ∧
  (Orch.get_all_miner_data o s !! signed_by headers = None →
   run = (inl (Orch.no_miner o (signed_by headers)), s,
          [EvGetMinerData (signed_by headers)]) ∧
   (∀ msg, Orch.no_miner o (signed_by headers) = IndexError msg →
           outcome run ≠ inl (HTTPException 404 "Miner not found"))).
Proof.
  intros Hscoped Hheaders run. split.
  - exact (miner_scoped_first_event request headers s Hscoped Hheaders).
  - intros Hnone. unfold run.
    rewrite (miner_scoped_unregistered request headers s Hscoped Hheaders Hnone).
    split; [reflexivity|]. intros msg ->. discriminate.
Qed.

End Facts.

Section Admission.

Context {S MG : Type}.
Variable o : Orch.t S MG.
Variable env : Env MG.

(** *** Routes that carry Epistula headers *)

Lemma authenticated_guarded (request : api.Request) (headers : EpistulaHeaders) (s : S) :
  api.epistula_headers request = Some headers →
  guarded false (trace (api.router o env request s)) = true.
Proof.
  intros Hheaders.
  destruct request; simpl in Hheaders; try discriminate; injection Hheaders as <-;
    unfold_handler; consult; try reflexivity;
    repeat (case_match; simplify_eq; simpl in *; try reflexivity).
  all: repeat match goal with
              | H : String.eqb _ _ = _ |- _ => rewrite H; clear H
              end; reflexivity.
Qed.

(** The verification a handler asks for is over the request's own headers
    and body. *)
Lemma authenticated_verifies (request : api.Request) (headers : EpistulaHeaders) (s : S) :
  api.epistula_headers request = Some headers →
  Forall (verifies env headers (api.signed_body request)) (trace (api.router o env request s)).
Proof.
  intros Hheaders.
  destruct request; simpl in Hheaders; try discriminate; injection Hheaders as <-;
    unfold verifies; unfold_handler; consult;
    repeat (case_match; simplify_eq; simpl in * );
    repeat constructor; auto.
Qed.

Lemma authenticated_rejected (request : api.Request) (headers : EpistulaHeaders) (s : S) :
  api.epistula_headers request = Some headers →
  signature_ok env headers (api.signed_body request) = false →
  calls (trace (api.router o env request s)) = [] ∧
  final_state (api.router o env request s) = s.
Proof.
  intros Hheaders.
  destruct request; simpl in Hheaders; try discriminate; injection Hheaders as <-;
    unfold signature_ok; unfold_handler; consult; intros Hbad;
    try discriminate; split; reflexivity.
Qed.

(** *** Score submission *)

(** An admitted submission is one call of [submit_miner_scores] on the
    weights; nothing of the headers reaches the orchestrator. *)
Lemma submit_admitted (weights : list (string * float)) (headers : EpistulaHeaders) (s : S) :
  signature_ok env headers (BodyWeights weights) = true →
  entity_type_ok o env (signed_by headers) validator s = true →
  let run := api.router o env (api.POST_submit_miner_weights weights headers) s in
  outcome run = (match (Orch.submit_miner_scores o weights s).1 with
                 | inl e => inl e
                 | inr _ => inr submitted
                 end) ∧
  final_state run = (Orch.submit_miner_scores o weights s).2 ∧
  calls (trace run) = [Call_submit_miner_scores weights].
Proof.
  unfold signature_ok, entity_type_ok. unfold_handler. consult; intros Hsig Hentity;
    try discriminate;
    destruct (Orch.submit_miner_scores o weights s) as [[e|[]] s1]; simpl;
    repeat split; reflexivity.
Qed.

(** *** Layer requests *)

Lemma request_layer_admitted (headers : EpistulaHeaders) (s : S) (data : MinerData) :
  Orch.get_all_miner_data o s !! signed_by headers = Some data →
  signature_ok env headers BodyEmpty = true →
  entity_type_ok o env (signed_by headers) miner s = true →
  let run := api.router o env (api.POST_miners_request_layer headers) s in
  outcome run = layer_answer (Orch.request_layer o s).1 ∧
  final_state run = (Orch.request_layer o s).2 ∧
  calls (trace run) = [Call_request_layer].
Proof.
  unfold signature_ok, entity_type_ok. unfold_handler.
  intros Hknown. rewrite Hknown. consult; intros Hsig Hentity; try discriminate;
    destruct (Orch.request_layer o s) as [[[]|layer] s1]; simpl;
    repeat split; reflexivity.
Qed.

(** *** Weights notifications and loss reports *)

(** For a signer with a registry record and an admitted request the
    orchestrator's verdict is passed on as [success]; only an IndexError of
    the orchestrator becomes [404 Miner not found]. *)
Lemma notify_weights_uploaded_admitted
    (weights_path metadata_path optimizer_state_path optimizer_state_metadata_path : string)
    (headers : EpistulaHeaders) (s : S) (data : MinerData) :
  Orch.get_all_miner_data o s !! signed_by headers = Some data →
  signature_ok env headers BodyEmpty = true →
  entity_type_ok o env (signed_by headers) miner s = true →
  let result := Orch.notify_weights_uploaded o (signed_by headers) weights_path metadata_path
                  optimizer_state_path optimizer_state_metadata_path s in
  let run := api.router o env
               (api.POST_miners_notify_weights_uploaded weights_path metadata_path
                  optimizer_state_path optimizer_state_metadata_path headers) s in
  outcome run = weights_answer result.1 ∧ final_state run = result.2.
Proof.
  unfold signature_ok, entity_type_ok. unfold_handler.
  intros Hknown. rewrite Hknown. consult; intros Hsig Hentity; try discriminate;
    destruct (Orch.notify_weights_uploaded o (signed_by headers) weights_path metadata_path
                optimizer_state_path optimizer_state_metadata_path s) as [[[]|success] s1];
    simpl; split; reflexivity.
Qed.

(** For a signer with a registry record and an admitted request the loss
    report is handed to the orchestrator; any exception of the orchestrator
    comes back as a 500 with its text. *)
Lemma report_loss_admitted (loss_report : LossReportRequest) (headers : EpistulaHeaders)
    (s : S) (data : MinerData) :
  Orch.get_all_miner_data o s !! signed_by headers = Some data →
  signature_ok env headers (BodyLoss loss_report) = true →
  entity_type_ok o env (signed_by headers) miner s = true →
  let result := Orch.record_and_report_loss o (signed_by headers)
                  (lr_activation_uid loss_report) (lr_loss_value loss_report) s in
  let run := api.router o env (api.POST_miners_report_loss loss_report headers) s in
  outcome run = loss_answer (signed_by headers) loss_report (time_time env) result.1 ∧
  final_state run = result.2.
Proof.
  unfold signature_ok, entity_type_ok. unfold_handler.
  intros Hknown. rewrite Hknown. consult; intros Hsig Hentity; try discriminate;
    destruct (Orch.record_and_report_loss o (signed_by headers)
                (lr_activation_uid loss_report) (lr_loss_value loss_report) s)
      as [[e|[]] s1];
    simpl; split; reflexivity.
Qed.

(** *** Merged partitions *)

(** The partitions notification of a signer with a registry record and a
    verified signature is handed to the orchestrator; the handler never asks
    for the signer's entity type. *)
Lemma notify_merged_partitions_admitted
    (partitions : list Partition) (headers : EpistulaHeaders) (s : S) (data : MinerData) :
  Orch.get_all_miner_data o s !! signed_by headers = Some data →
  signature_ok env headers (BodyPartitions partitions) = true →
  let run := api.router o env
               (api.POST_miners_notify_merged_partitions_uploaded partitions headers) s in
  calls (trace run) = [Call_notify_merged_partitions_uploaded (signed_by headers) partitions] ∧
  final_state run =
    (Orch.notify_merged_partitions_uploaded o (signed_by headers) partitions s).2 ∧
  checks_entity_type (trace run) = false.
Proof.
  unfold signature_ok. unfold_handler.
  intros Hknown. rewrite Hknown. consult; intros Hsig; try discriminate;
    destruct (Orch.notify_merged_partitions_uploaded o (signed_by headers) partitions s) as [[e|[]] s1];
    simpl; repeat split; reflexivity.
Qed.

(** The sibling handler, for comparison: with the check enabled and the
    signer rejected, notify_weights_uploaded stops before the orchestrator. *)
Lemma notify_weights_uploaded_rejected
    (weights_path metadata_path optimizer_state_path optimizer_state_metadata_path : string)
    (headers : EpistulaHeaders) (s : S) :
  entity_type_ok o env (signed_by headers) miner s = false →
  calls (trace (api.router o env
                  (api.POST_miners_notify_weights_uploaded weights_path metadata_path
                     optimizer_state_path optimizer_state_metadata_path headers) s)) = [].
Proof.
  unfold entity_type_ok. unfold_handler. consult; intros Hentity;
    try discriminate; reflexivity.
Qed.

(** C1. What submit_miner_weights records does not contain the validator:
    an admitted submission reaches the orchestrator as
    [submit_miner_scores(weights)] and nothing else, so two admitted
    submissions of the same score map by any two signers give the same
    answer, the same orchestrator state and the same call. *)
Theorem submission_does_not_record_the_validator
    (weights : list (string * float)) (h1 h2 : EpistulaHeaders) (s : S) :
  signature_ok env h1 (BodyWeights weights) = true →
  entity_type_ok o env (signed_by h1) validator s = true →
  signature_ok env h2 (BodyWeights weights) = true →
  entity_type_ok o env (signed_by h2) validator s = true →
  let run1 := api.router o env (api.POST_submit_miner_weights weights h1) s in
  let run2 := api.router o env (api.POST_submit_miner_weights weights h2) s in
  calls (trace run1) = [Call_submit_miner_scores weights] ∧
  calls (trace run2) = [Call_submit_miner_scores weights] ∧
  outcome run1 = outcome run2 ∧
  final_state run1 = final_state run2 ∧
  final_state run1 = (Orch.submit_miner_scores o weights s).2.
Proof.
  intros Hsig1 Hentity1 Hsig2 Hentity2 run1 run2.
  destruct (submit_admitted weights h1 s Hsig1 Hentity1) as (Hout1 & Hstate1 & Hcalls1).
  destruct (submit_admitted weights h2 s Hsig2 Hentity2) as (Hout2 & Hstate2 & Hcalls2).
  fold run1 in Hout1, Hstate1, Hcalls1. fold run2 in Hout2, Hstate2, Hcalls2.
  rewrite Hout1, Hout2, Hstate1, Hstate2. auto.
Qed.

(** C5. request_layer invokes the orchestrator's selection with no
    argument: for a signer with a registry record and an admitted request the
    answer is the layer the orchestrator's [request_layer()] returns in the
    current state, the same for every such signer, and the handler answers
    [404 Miner not found] when that method raises IndexError. *)
Theorem request_layer_ignores_the_caller (h1 h2 : EpistulaHeaders) (s : S) (d1 d2 : MinerData) :
  Orch.get_all_miner_data o s !! signed_by h1 = Some d1 →
  signature_ok env h1 BodyEmpty = true →
  entity_type_ok o env (signed_by h1) miner s = true →
  Orch.get_all_miner_data o s !! signed_by h2 = Some d2 →
  signature_ok env h2 BodyEmpty = true →
  entity_type_ok o env (signed_by h2) miner s = true →
  let run1 := api.router o env (api.POST_miners_request_layer h1) s in
  let run2 := api.router o env (api.POST_miners_request_layer h2) s in
  calls (trace run1) = [Call_request_layer] ∧
  calls (trace run2) = [Call_request_layer] ∧
  outcome run1 = outcome run2 ∧
  final_state run1 = final_state run2 ∧
  (∀ layer, (Orch.request_layer o s).1 = inr layer →
            outcome run1 = inr (RespLayer {| la_layer := layer |})) ∧
  (∀ msg, (Orch.request_layer o s).1 = inl (IndexError msg) →
          outcome run1 = inl (HTTPException 404 "Miner not found")).
Proof.
  intros Hknown1 Hsig1 Hentity1 Hknown2 Hsig2 Hentity2 run1 run2.
  destruct (request_layer_admitted h1 s d1 Hknown1 Hsig1 Hentity1)
    as (Hout1 & Hstate1 & Hcalls1).
  destruct (request_layer_admitted h2 s d2 Hknown2 Hsig2 Hentity2)
    as (Hout2 & Hstate2 & Hcalls2).
  fold run1 in Hout1, Hstate1, Hcalls1. fold run2 in Hout2, Hstate2, Hcalls2.
  rewrite Hout1, Hout2, Hstate1, Hstate2.
  repeat split; auto; intros x Hx; rewrite Hx; reflexivity.
Qed.

(** C7. With the entity-type check enabled and a signer the chain does not
    accept as a miner, notify_merged_partitions_uploaded still hands the
    partitions to the orchestrator: the handler never asks for the signer's
    entity type. *)
Theorem merged_partitions_skip_the_entity_check
    (partitions : list Partition) (headers : EpistulaHeaders) (s : S) (data : MinerData) :
  BITTENSOR env = true →
  entity_type_ok o env (signed_by headers) miner s = false →
  Orch.get_all_miner_data o s !! signed_by headers = Some data →
  signature_ok env headers (BodyPartitions partitions) = true →
  let run := api.router o env
               (api.POST_miners_notify_merged_partitions_uploaded partitions headers) s in
  calls (trace run) = [Call_notify_merged_partitions_uploaded (signed_by headers) partitions] ∧
  final_state run =
    (Orch.notify_merged_partitions_uploaded o (signed_by headers) partitions s).2 ∧
  checks_entity_type (trace run) = false.
Proof.
  intros _ _ Hknown Hsig.
  exact (notify_merged_partitions_admitted partitions headers s data Hknown Hsig).
Qed.

End Admission.

(** * The loss log *)

Section LossLog.

Import engine.

Variable now : float.

Lemma record_unregistered (hotkey activation_uid : string) (loss : float) (st : Store) :
  miners st !! hotkey = None →
  record_and_report_loss now hotkey activation_uid loss st = (inl (NotFound hotkey), st).
Proof. intros Hnone. unfold record_and_report_loss. by rewrite Hnone. Qed.

Lemma record_registered (hotkey activation_uid : string) (loss : float) (st : Store) :
  is_Some (miners st !! hotkey) →
  ∃ st', record_and_report_loss now hotkey activation_uid loss st = (inr tt, st') ∧
         miners st' = miners st ∧
         loss_records st' = (loss_records st ++
           [record_of now {| rp_hotkey := hotkey; rp_activation_uid := activation_uid;
                             rp_loss := loss |}])%list ∧
         losses st' !! activation_uid = Some loss.
Proof.
  intros [data Hdata]. unfold record_and_report_loss. rewrite Hdata.
  eexists. split; [reflexivity|]. simpl.
  split; [reflexivity|]. split; [reflexivity|]. apply lookup_insert_eq.
Qed.

(** Any sequence of reports by registered miners goes through, one record
    per report, in order; activation ids may repeat. *)
Lemma report_all_registered (reports : list Report) (st : Store) :
  Forall (registered st) reports →
  ∃ st', report_all now reports st = (inr tt, st') ∧
         miners st' = miners st ∧
         loss_records st' = (loss_records st ++ (record_of now <$> reports))%list.
Proof.
  revert st. induction reports as [|r reports IH]; intros st Hall.
  - exists st. simpl. rewrite app_nil_r. auto.
  - apply Forall_cons in Hall as [Hr Hrest].
    destruct (record_registered (rp_hotkey r) (rp_activation_uid r) (rp_loss r) st Hr)
      as (st1 & Hrun & Hminers & Hrecords & _).
    destruct (IH st1) as (st' & Hrun' & Hminers' & Hrecords').
    { unfold registered in *. rewrite Hminers. exact Hrest. }
    exists st'. simpl. rewrite Hrun, Hrun'. split; [reflexivity|].
    split; [congruence|]. rewrite Hrecords', Hrecords, <- app_assoc.
    destruct r; reflexivity.
Qed.

(** C8. record_and_report_loss fails only for an unregistered hotkey, with
    the not-found error; for a registered hotkey it succeeds and appends one
    loss record, also when the activation id was reported before: every
    sequence of reports by registered hotkeys succeeds and appends one record
    per report. *)
Theorem record_and_report_loss_fails_only_when_unregistered
    (hotkey activation_uid : string) (loss : float) (st : Store) :
  let result := record_and_report_loss now hotkey activation_uid loss st in
  (∀ e, result.1 = inl e → miners st !! hotkey = None ∧ e = NotFound hotkey) ∧
  (miners st !! hotkey = None → result = (inl (NotFound hotkey), st)) ∧
  (is_Some (miners st !! hotkey) →
   result.1 = inr tt ∧
   loss_records result.2 = (loss_records st ++
     [{| loss_hotkey := hotkey; loss_activation_uid := activation_uid;
         loss_timestamp := now; loss_value := loss |}])%list ∧
   losses result.2 !! activation_uid = Some loss) ∧
  (∀ reports, Forall (registered st) reports →
     ∃ st', report_all now reports st = (inr tt, st') ∧
            loss_records st' = (loss_records st ++ (record_of now <$> reports))%list).
Proof.
  intros result. subst result.
  destruct (miners st !! hotkey) as [data|] eqn:Hdata.
  - destruct (record_registered hotkey activation_uid loss st (mk_is_Some _ _ Hdata))
      as (st' & Hrun & _ & Hrecords & Hlosses).
    rewrite Hrun. simpl. split; [|split; [|split]].
    + intros e He. discriminate.
    + intros Hnone. discriminate.
    + auto.
    + intros reports Hall.
      destruct (report_all_registered reports st Hall) as (st2 & Hrun2 & _ & Hrecords2).
      eauto.
  - rewrite (record_unregistered hotkey activation_uid loss st Hdata). simpl.
    split; [|split; [|split]].
    + intros e [= <-]. auto.
    + reflexivity.
    + intros [data' Hsome]. discriminate.
    + intros reports Hall.
      destruct (report_all_registered reports st Hall) as (st2 & Hrun2 & _ & Hrecords2).
      eauto.
Qed.

End LossLog.

(** * The merge performance history *)

Section History.

Context {S MG : Type}.
Variable o : Orch.t S MG.
Variable env : Env MG.

Lemma last_n_length {A} (n : nat) (xs : list A) : (length (api.last_n n xs) ≤ n)%nat.
Proof. unfold api.last_n. rewrite length_drop. lia. Qed.

Lemma last_n_suffix {A} (n : nat) (xs : list A) :
  xs = (take (length xs - n) xs ++ api.last_n n xs)%list.
Proof. unfold api.last_n. by rewrite take_drop. Qed.

Lemma last_n_short {A} (n : nat) (xs : list A) : (length xs ≤ n)%nat → api.last_n n xs = xs.
Proof.
  intros Hshort. unfold api.last_n.
  replace (length xs - n)%nat with 0%nat by lia. reflexivity.
Qed.

(** One entry reports the scalars of the session and the sizes of its
    three sets. *)
Lemma recent_session_entry_fields (session : MergeSession) :
  let entry := api.recent_session_entry session in
  dict_keys entry = recent_session_keys ∧
  dict_get "session_id" entry = Some (PyStr (session_id session)) ∧
  dict_get "layer" entry = Some (PyInt (ms_layer session)) ∧
  dict_get "status" entry = Some (PyStr (ms_status session)) ∧
  dict_get "started_at" entry = Some (PyFloat (started_at session)) ∧
  dict_get "completed_at" entry = Some (api.optional_float (completed_at session)) ∧
  dict_get "duration" entry = Some (api.optional_float (api.get_session_duration session)) ∧
  dict_get "participation_rate" entry = Some (PyFloat (api.get_participation_rate session)) ∧
  dict_get "target_miners_count" entry = Some (PyInt (Z.of_nat (size (target_miners session)))) ∧
  dict_get "weights_received_count" entry =
    Some (PyInt (Z.of_nat (size (weights_received session)))) ∧
  dict_get "partitions_completed_count" entry =
    Some (PyInt (Z.of_nat (size (partitions_completed session)))).
Proof. repeat split. Qed.

(** The per-layer loop over reading methods leaves the state alone. *)
Lemma layer_statistics_leaves_state (layers : list Z) (window : Z) (s : S) :
  (∀ layer, leaves_state (Orch.get_merge_statistics o layer window)) →
  final_state (api.layer_statistics o layers window s) = s.
Proof.
  intros Hreads. revert s. induction layers as [|layer layers IH]; intros s; [reflexivity|].
  simpl. unfold_handler.
  pose proof (Hreads (Some layer) s) as Hs.
  destruct (Orch.get_merge_statistics o (Some layer) window s) as [[e|stats] s1];
    simpl in *; subst s1; [reflexivity|].
  specialize (IH s).
  destruct (api.layer_statistics o layers window s) as [[[e|more] s2] t2]; simpl in *;
    subst s2; reflexivity.
Qed.

(** The per-layer loop over methods that do not raise does not raise. *)
Lemma layer_statistics_returns (layers : list Z) (window : Z) (s : S) :
  (∀ layer, returns (Orch.get_merge_statistics o layer window)) →
  ∃ stats, outcome (api.layer_statistics o layers window s) = inr stats.
Proof.
  intros Hreturns. revert s. induction layers as [|layer layers IH]; intros s.
  - eexists. reflexivity.
  - simpl. unfold_handler.
    destruct (Hreturns (Some layer) s) as [stats Hstats].
    destruct (Orch.get_merge_statistics o (Some layer) window s) as [r s1];
      simpl in Hstats; subst r.
    destruct (IH s1) as [more Hmore].
    destruct (api.layer_statistics o layers window s1) as [[r s2] t2];
      simpl in Hmore; subst r. eexists. reflexivity.
Qed.

(** Whatever the handler returns has the last ten completed sessions, as
    they stand when the handler is done, under [recent_sessions]. *)
Lemma history_recent_sessions (hours : option Z) (breakdown : option bool) (s : S)
    (resp : Response) :
  let run := api.router o env (api.GET_metrics_merge_performance_history hours breakdown) s in
  outcome run = inr resp →
  ∃ v, resp = RespValue v ∧
       dict_get "recent_sessions" v =
         Some (PyList (api.recent_session_entry <$>
                         api.last_n 10 (Orch.completed_sessions o (final_state run)))).
Proof.
  simpl. unfold api.get_merge_performance_history. unfold_handler.
  destruct hours as [hours|]; simpl; [|discriminate].
  destruct (Orch.get_merge_statistics o None (hours * 3600) s) as [[e|overall] s1];
    simpl; [discriminate|].
  destruct (api.truthy_bool breakdown); simpl.
  - destruct (api.layer_statistics o _ _ s1) as [[[e|stats] s2] t2]; simpl; [discriminate|].
    destruct (Orch.get_active_merge_sessions o s2) as [[e|active] s3]; simpl;
      [discriminate|].
    intros [= <-]. eexists. split; reflexivity.
  - destruct (Orch.get_active_merge_sessions o s1) as [[e|active] s3]; simpl;
      [discriminate|].
    intros [= <-]. eexists. split; reflexivity.
Qed.

(** With reading methods, the handler leaves the orchestrator as it found
    it, whether it returns or raises. *)
Lemma history_leaves_state (hours : option Z) (breakdown : option bool) (s : S) :
  (∀ layer window, leaves_state (Orch.get_merge_statistics o layer window)) →
  leaves_state (Orch.get_active_merge_sessions o) →
  final_state (api.router o env (api.GET_metrics_merge_performance_history hours breakdown) s)
    = s.
Proof.
  intros Hstats Hactive. simpl. unfold api.get_merge_performance_history.
  destruct hours as [hours|]; [|reflexivity].
  pose proof (layer_statistics_leaves_state (seqZ 0 (Orch.N_LAYERS o)) (hours * 3600) s
                (λ layer, Hstats layer (hours * 3600))) as Hlayers.
  pose proof (Hstats None (hours * 3600) s) as Hoverall.
  pose proof (Hactive s) as Hs.
  unfold_handler.
  destruct (Orch.get_merge_statistics o None (hours * 3600) s) as [[e|overall] s1];
    simpl in *; subst s1; [reflexivity|].
  destruct (api.truthy_bool breakdown); simpl.
  - destruct (api.layer_statistics o _ _ s) as [[[e|stats] s2] t2]; simpl in *; subst s2;
      [reflexivity|].
    destruct (Orch.get_active_merge_sessions o s) as [[e|active] s3]; simpl in *; subst s3;
      reflexivity.
  - destruct (Orch.get_active_merge_sessions o s) as [[e|active] s3]; simpl in *; subst s3;
      reflexivity.
Qed.

(** With methods that do not raise and a time window given, the handler
    returns a response. *)
Lemma history_returns (hours : Z) (breakdown : option bool) (s : S) :
  (∀ layer window, returns (Orch.get_merge_statistics o layer window)) →
  returns (Orch.get_active_merge_sessions o) →
  ∃ resp,
    outcome (api.router o env
               (api.GET_metrics_merge_performance_history (Some hours) breakdown) s)
      = inr resp.
Proof.
  intros Hstats Hactive. simpl. unfold api.get_merge_performance_history. unfold_handler.
  simpl.
  destruct (Hstats None (hours * 3600) s) as [overall Hoverall].
  destruct (Orch.get_merge_statistics o None (hours * 3600) s) as [r s1];
    simpl in Hoverall; subst r.
  destruct (api.truthy_bool breakdown); simpl.
  - destruct (layer_statistics_returns (seqZ 0 (Orch.N_LAYERS o)) (hours * 3600) s1
                (λ layer, Hstats layer (hours * 3600))) as [stats Hlayers].
    destruct (api.layer_statistics o _ _ s1) as [[r s2] t2]; unfold outcome in Hlayers;
      simpl in Hlayers; subst r.
    destruct (Hactive s2) as [active Hs].
    destruct (Orch.get_active_merge_sessions o s2) as [r s3]; simpl in Hs; subst r.
    eexists. reflexivity.
  - destruct (Hactive s1) as [active Hs].
    destruct (Orch.get_active_merge_sessions o s1) as [r s3]; simpl in Hs; subst r.
    eexists. reflexivity.
Qed.

End History.

(** * The handlers at work on the sample orchestrator *)

Import engine sample.

(** Two validators submit a score for miner A, one after the other.  The
    orchestrator is called with the score map only: the second submission
    is the same call, and leaves the same state, as if the first validator
    had sent it, and what the first validator submitted for A is gone. *)
Lemma two_validators_one_contribution :
  let s1 := final_state (run true (api.POST_submit_miner_weights nine_tenths (good "V1")) store) in
  let by_V2 := run true (api.POST_submit_miner_weights seven_tenths (good "V2")) s1 in
  let by_V1 := run true (api.POST_submit_miner_weights seven_tenths (good "V1")) s1 in
  "V1" ≠ "V2" ∧
  outcome by_V2 = inr submitted ∧
  calls (trace by_V2) = [Call_submit_miner_scores seven_tenths] ∧
  calls (trace by_V2) = calls (trace by_V1) ∧
  final_state by_V2 = final_state by_V1 ∧
  scores s1 !! "A" = Some (9 # 10)%Q ∧
  scores (final_state by_V2) !! "A" = Some (7 # 10)%Q.
Proof. vm_compute. repeat split; discriminate. Qed.

Lemma submission_does_not_record_the_validator_witness :
  signature_ok gated (good "V1") (BodyWeights nine_tenths) = true ∧
  entity_type_ok orch gated "V1" validator store = true ∧
  signature_ok gated (good "V2") (BodyWeights nine_tenths) = true ∧
  entity_type_ok orch gated "V2" validator store = true ∧
  outcome (run true (api.POST_submit_miner_weights nine_tenths (good "V1")) store) =
  outcome (run true (api.POST_submit_miner_weights nine_tenths (good "V2")) store).
Proof.
  repeat (split; [reflexivity|]).
  apply (submission_does_not_record_the_validator orch gated nine_tenths
           (good "V1") (good "V2") store); reflexivity.
Defined.

Lemma register_invalid_signature_is_409_witness :
  signature_ok open (forged "C") BodyEmpty = false ∧
  outcome (run false (api.POST_register (forged "C")) store) =
    inl (HTTPException 409 "Failed to register miner").
Proof.
  split; [reflexivity|].
  apply (register_invalid_signature_is_409 orch open (forged "C") store). reflexivity.
Defined.

Lemma register_is_idempotent_witness :
  miners store !! "A" = Some (miner_on "A" 0) ∧
  calls (trace (run false (api.POST_register (good "A")) store)) = [] ∧
  final_state (run false (api.POST_register (good "A")) store) = store.
Proof.
  split; [reflexivity|].
  pose proof (register_is_idempotent orch open (good "A") store (miner_on "A" 0) eq_refl)
    as (Hcalls & Hstate & _).
  split; [exact Hcalls | exact Hstate].
Defined.

Lemma notify_weights_uploaded_unregistered_witness :
  miners store !! "X" = None ∧
  outcome (run true (api.POST_miners_notify_weights_uploaded "w" "m" "o" "om" (good "X")) store)
    = inl (PyError "KeyError" "X").
Proof.
  split; [reflexivity|].
  apply (notify_weights_uploaded_unregistered orch gated "w" "m" "o" "om" (good "X") store).
  reflexivity.
Defined.

(** Miners A and B sit on different layers; each asks for a layer.  The
    orchestrator is called without an argument, and both get the same
    answer. *)
Lemma layer_request_same_for_A_and_B :
  let by_A := run true (api.POST_miners_request_layer (good "A")) store in
  let by_B := run true (api.POST_miners_request_layer (good "B")) store in
  "A" ≠ "B" ∧
  md_layer <$> miners store !! "A" = Some (Some 0) ∧
  md_layer <$> miners store !! "B" = Some (Some 1) ∧
  calls (trace by_A) = [Call_request_layer] ∧
  calls (trace by_B) = [Call_request_layer] ∧
  outcome by_A = inr (RespLayer {| la_layer := 0 |}) ∧
  outcome by_B = outcome by_A.
Proof. vm_compute. repeat split; discriminate. Qed.

Lemma request_layer_ignores_the_caller_witness :
  miners store !! "A" = Some (miner_on "A" 0) ∧
  miners store !! "B" = Some (miner_on "B" 1) ∧
  signature_ok gated (good "A") BodyEmpty = true ∧
  signature_ok gated (good "B") BodyEmpty = true ∧
  entity_type_ok orch gated "A" miner store = true ∧
  entity_type_ok orch gated "B" miner store = true ∧
  outcome (run true (api.POST_miners_request_layer (good "A")) store) =
  outcome (run true (api.POST_miners_request_layer (good "B")) store).
Proof.
  repeat (split; [reflexivity|]).
  apply (request_layer_ignores_the_caller orch gated (good "A") (good "B") store
           (miner_on "A" 0) (miner_on "B" 1)); reflexivity.
Defined.

Lemma merged_partitions_skip_the_entity_check_witness :
  BITTENSOR gated = true ∧
  entity_type_ok orch gated "D" miner store = false ∧
  miners store !! "D" = Some (miner_on "D" 0) ∧
  signature_ok gated (good "D") (BodyPartitions two_sections) = true ∧
  calls (trace (run true (api.POST_miners_notify_weights_uploaded "w" "m" "o" "om" (good "D"))
                  store)) = [] ∧
  calls (trace (run true (api.POST_miners_notify_merged_partitions_uploaded two_sections
                            (good "D")) store))
    = [Call_notify_merged_partitions_uploaded "D" two_sections].
Proof.
  repeat (split; [reflexivity|]).
  apply (merged_partitions_skip_the_entity_check orch gated two_sections (good "D") store
           (miner_on "D" 0)); reflexivity.
Defined.

Lemma record_and_report_loss_fails_only_when_unregistered_witness :
  Forall (registered store) twice ∧
  ∃ st', report_all now twice store = (inr tt, st') ∧
         loss_records st' = (loss_records store ++ (record_of now <$> twice))%list.
Proof.
  assert (Forall (registered store) twice) as Hall.
  { repeat constructor; exists (miner_on "A" 0); reflexivity. }
  split; [exact Hall|].
  destruct (record_and_report_loss_fails_only_when_unregistered now "A" "a1" (5 # 2)%Q store)
    as (_ & _ & _ & Hseq).
  exact (Hseq twice Hall).
Defined.

Lemma miner_scoped_lookup_precedes_verification_witness :
  api.miner_scoped (api.POST_miners_report_loss one_loss (forged "X")) = true ∧
  miners store !! "X" = None ∧
  run true (api.POST_miners_report_loss one_loss (forged "X")) store =
    (inl (PyError "KeyError" "X"), store, [EvGetMinerData "X"]).
Proof.
  split; [reflexivity|]. split; [reflexivity|].
  apply (miner_scoped_lookup_precedes_verification orch gated
           (api.POST_miners_report_loss one_loss (forged "X")) (forged "X") store
           eq_refl eq_refl).
  reflexivity.
Defined.

(** The read at work: twelve sessions completed, the ten latest reported. *)
Example history_of_busy_store :
  ∃ v entries,
    outcome (run true (api.GET_metrics_merge_performance_history (Some 24) (Some true))
               busy_store) = inr (RespValue v) ∧
    dict_get "recent_sessions" v = Some (PyList entries) ∧
    length entries = 10%nat ∧
    dict_get "session_id" <$> entries = (λ n, Some (PyStr (pretty n))) <$> seqZ 3 10.
Proof. do 2 eexists. vm_compute. repeat split. Qed.

(** Miner A reports a loss for activation a1 twice through the handler:
    both requests are answered, and the log holds both records. *)
Example loss_reported_twice :
  let first := run true (api.POST_miners_report_loss one_loss (good "A")) store in
  let second := run true (api.POST_miners_report_loss one_loss (good "A")) (final_state first) in
  outcome first = loss_answer "A" one_loss now (inr tt) ∧
  outcome second = loss_answer "A" one_loss now (inr tt) ∧
  loss_activation_uid <$> loss_records (final_state second) = ["a1"; "a1"].
Proof. vm_compute. repeat split. Qed.

(** * Rate-limit keys *)

Lemma lstrip_first (s : string) (c : Ascii.ascii) : first_char (lstrip s) = Some c → is_space c = false.
Proof.
  induction s as [|d rest IH]; simpl; [discriminate|].
  destruct (is_space d) eqn:Hd; [exact IH|]. simpl. intros [= <-]. exact Hd.
Qed.

Lemma last_char_cons (d k : Ascii.ascii) (kept : string) :
  last_char (String d (String k kept)) = last_char (String k kept).
Proof. simpl. by destruct (last_char kept). Qed.

Lemma rstrip_last (s : string) (c : Ascii.ascii) : last_char (rstrip s) = Some c → is_space c = false.
Proof.
  induction s as [|d rest IH]; simpl; [discriminate|].
  destruct (rstrip rest) as [|k kept] eqn:Hkept.
  - destruct (is_space d) eqn:Hd; simpl; [discriminate|]. intros [= <-]. exact Hd.
  - rewrite last_char_cons. exact IH.
Qed.

Lemma rstrip_first (s : string) (c : Ascii.ascii) :
  first_char (rstrip s) = Some c → first_char s = Some c.
Proof.
  destruct s as [|d rest]; simpl; [discriminate|].
  destruct (rstrip rest); [destruct (is_space d)|]; simpl; congruence.
Qed.

Lemma lstrip_trimmed (s : string) :
  (∀ c, first_char s = Some c → is_space c = false) → lstrip s = s.
Proof.
  destruct s as [|d rest]; simpl; [reflexivity|]. intros Hfirst.
  by rewrite (Hfirst d eq_refl).
Qed.

Lemma rstrip_trimmed (s : string) :
  (∀ c, last_char s = Some c → is_space c = false) → rstrip s = s.
Proof.
  induction s as [|d rest IH]; [reflexivity|]. intros Hlast.
  destruct rest as [|k kept].
  - simpl. by rewrite (Hlast d eq_refl).
  - assert (∀ c, last_char (String k kept) = Some c → is_space c = false) as Hkept.
    { intros c Hc. apply Hlast. by rewrite last_char_cons. }
    change (rstrip (String d (String k kept))) with
      (match rstrip (String k kept) with
       | EmptyString => if is_space d then EmptyString else String d EmptyString
       | kept' => String d kept'
       end).
    by rewrite (IH Hkept).
Qed.

Lemma strip_is_trimmed (s : string) : trimmed (strip s).
Proof.
  split; intros c Hc.
  - apply (lstrip_first s). by apply rstrip_first.
  - by apply (rstrip_last (lstrip s)).
Qed.

Lemma strip_of_trimmed (s : string) : trimmed s → strip s = s.
Proof.
  intros [Hfirst Hlast]. unfold strip. rewrite (lstrip_trimmed s Hfirst).
  exact (rstrip_trimmed s Hlast).
Qed.

Lemma first_field_no_comma (s : string) : has_comma (first_field s) = false.
Proof.
  induction s as [|c rest IH]; simpl; [reflexivity|].
  destruct (is_comma c) eqn:Hc; simpl; [reflexivity|]. by rewrite Hc.
Qed.

Lemma lstrip_no_comma (s : string) : has_comma s = false → has_comma (lstrip s) = false.
Proof.
  induction s as [|c rest IH]; simpl; [done|].
  intros [Hc Hrest]%orb_false_iff.
  destruct (is_space c); [by apply IH|]. simpl. by rewrite Hc, Hrest.
Qed.

Lemma rstrip_no_comma (s : string) : has_comma s = false → has_comma (rstrip s) = false.
Proof.
  induction s as [|c rest IH]; simpl; [done|].
  intros [Hc Hrest]%orb_false_iff. specialize (IH Hrest).
  destruct (rstrip rest) as [|k kept].
  - destruct (is_space c); simpl; [done|]. by rewrite Hc.
  - change (has_comma (String c (String k kept)))
      with (is_comma c || has_comma (String k kept)).
    by rewrite Hc, IH.
Qed.

(** With an X-Forwarded-For header the address is the header's first
    comma-separated field without the surrounding white space, whatever the
    connection's peer is: it holds no comma, neither starts nor ends with
    white space, and stripping it again changes nothing. *)
Theorem get_remote_address_forwarded (request : HttpRequest) (forwarded : string) :
  http_headers request !! "x-forwarded-for" = Some forwarded →
  let address := get_remote_address request in
  address = strip (first_field forwarded) ∧
  has_comma address = false ∧
  trimmed address ∧
  strip address = address ∧
  (∀ peer, get_remote_address {| http_headers := http_headers request; http_client := peer |}
           = address).
Proof.
  intros Hforwarded address. subst address. unfold get_remote_address. simpl.
  rewrite Hforwarded.
  split; [reflexivity|]. split.
  { unfold strip. apply rstrip_no_comma, lstrip_no_comma, first_field_no_comma. }
  split; [apply strip_is_trimmed|].
  split; [apply strip_of_trimmed, strip_is_trimmed|]. reflexivity.
Qed.

(** Without an X-Forwarded-For header the address is the peer's host when
    there is one and it is not empty, and 127.0.0.1 otherwise; it is never
    empty. *)
Theorem get_remote_address_peer (request : HttpRequest) :
  http_headers request !! "x-forwarded-for" = None →
  let address := get_remote_address request in
  address ≠ "" ∧
  (∀ host, http_client request = Some host → host ≠ "" → address = host) ∧
  (http_client request = None ∨ http_client request = Some "" → address = "127.0.0.1").
Proof.
  intros Hnone address. subst address. unfold get_remote_address. rewrite Hnone.
  destruct (http_client request) as [host|]; [destruct host as [|c rest]|]; simpl.
  - split; [discriminate|]. split; [intros host [= <-] Hhost; done|done].
  - split; [discriminate|]. split; [intros host [= <-] _; done|intros [|]; discriminate].
  - split; [discriminate|]. split; [intros host; discriminate|done].
Qed.

(** The hotkey limiter's key is the Epistula-Signed-By header as sent,
    whatever the address, whenever that header is present and not empty; a
    missing or empty header falls back to the address. *)
Theorem get_signed_by_key_cases (request : HttpRequest) :
  (∀ signer, http_headers request !! "epistula-signed-by" = Some signer → signer ≠ "" →
             get_signed_by_key request = signer) ∧
  (http_headers request !! "epistula-signed-by" = None ∨
   http_headers request !! "epistula-signed-by" = Some "" →
   get_signed_by_key request = get_remote_address request).
Proof.
  unfold get_signed_by_key. split.
  - intros signer -> Hsigner. destruct signer; [done|reflexivity].
  - intros [-> | ->]; reflexivity.
Qed.

(** * More on the handlers *)

Section Routes.

Context {S MG : Type}.
Variable o : Orch.t S MG.
Variable env : Env MG.

(** Splits on the route and brings the signer's registry record, when the
    route looks it up, into the goal. *)
Ltac by_route request Hheaders :=
  destruct request; simpl in Hheaders; try discriminate; injection Hheaders as <-.

(** A request whose signature the verifier rejects with a message is
    answered [401 Epistula verification failed] with that message, on every
    route that carries the headers but register, which answers
    [409 Failed to register miner]; on the miner-scoped routes this is so
    when the signer has a registry record. *)
Theorem rejected_signature_answer
    (request : api.Request) (headers : EpistulaHeaders) (s : S) (msg : string) :
  api.epistula_headers request = Some headers →
  has_record o request s = true →
  verify_signature_v2 env headers (api.signed_body request) (time_time env) = Some msg →
  msg ≠ "" →
  outcome (api.router o env request s) =
    inl (rejection request (HTTPException 401 ("Epistula verification failed: " ++ msg))).
Proof.
  intros Hheaders Hrecord Hsig Hmsg.
  apply String.eqb_neq in Hmsg.
  by_route request Hheaders; unfold has_record in Hrecord; simpl in Hrecord, Hsig;
    try (apply bool_decide_eq_true in Hrecord as [data Hdata]);
    unfold_handler; simpl; rewrite ?Hdata; simpl; rewrite Hsig; simpl;
    rewrite Hmsg; reflexivity.
Qed.

(** Where the entity-type check is enabled and the chain rejects the signer
    for the type the route requires, no orchestrator method is invoked and
    the state is unchanged; for a request that got as far as the check the
    answer is the chain's rejection (409 on register). *)
Theorem entity_rejection_stops_the_request
    (request : api.Request) (headers : EpistulaHeaders) (required_type : EntityType)
    (s : S) (e : exn) :
  api.epistula_headers request = Some headers →
  required_entity request = Some required_type →
  BITTENSOR env = true →
  verify_entity_type env (signed_by headers) (Orch.metagraph o s) required_type = inl e →
  let run := api.router o env request s in
  calls (trace run) = [] ∧
  final_state run = s ∧
  (has_record o request s = true →
   signature_ok env headers (api.signed_body request) = true →
   outcome run = inl (rejection request e)).
Proof.
  intros Hheaders Hrequired Hgated Hrejected.
  by_route request Hheaders; simpl in Hrequired; try discriminate;
    injection Hrequired as <-;
    unfold has_record, signature_ok; unfold_handler; simpl;
    rewrite Hgated; simpl;
    repeat match goal with
           | |- context [verify_signature_v2 ?e ?h ?b ?t] =>
               destruct (verify_signature_v2 e h b t) as [?msg|] eqn:?
           | |- context [String.eqb ?m ""] => destruct (String.eqb m "") eqn:?
           | |- context [Orch.get_all_miner_data ?x ?s !! ?k] =>
               destruct (Orch.get_all_miner_data x s !! k) as [?data|] eqn:?
           | _ => progress simpl
           | _ => rewrite Hrejected
           end;
    repeat split; try reflexivity; try discriminate;
    intros Hrecord; try (apply bool_decide_eq_true in Hrecord as [? ?]; discriminate);
    intros; try discriminate; reflexivity.
Qed.

(** The per-layer loop does nothing but call [get_merge_statistics]. *)
Lemma layer_statistics_only_calls (layers : list Z) (window : Z) (s : S) :
  forallb is_call (trace (api.layer_statistics o layers window s)) = true.
Proof.
  revert s. induction layers as [|layer layers IH]; intros s; [reflexivity|].
  simpl. unfold_handler.
  destruct (Orch.get_merge_statistics o (Some layer) window s) as [[e|stats] s1];
    simpl; [reflexivity|].
  specialize (IH s1).
  destruct (api.layer_statistics o layers window s1) as [[[e|more] s2] t2]; simpl in *;
    rewrite ?app_nil_r; exact IH.
Qed.

(** The routes without Epistula headers are public reads: their handlers
    look nobody up, verify no signature and check no entity type; all they
    do is call the orchestrator, and the health check does not even do
    that. *)
Theorem public_routes_only_call (request : api.Request) (s : S) :
  api.epistula_headers request = None →
  forallb is_call (trace (api.router o env request s)) = true ∧
  (request = api.GET_healthcheck →
   api.router o env request s =
     (inr (RespValue (PyDict [(PyStr "status", PyStr "healthy")])), s, [])).
Proof.
  intros Hpublic. split; [|intros ->; reflexivity].
  destruct request; simpl in Hpublic; try discriminate; simpl;
    try (unfold_handler; simpl; repeat (case_match; simplify_eq; simpl); reflexivity).
  unfold api.get_merge_performance_history. unfold_handler.
  destruct time_window_hours as [hours|]; simpl; [|reflexivity].
  destruct (Orch.get_merge_statistics o None (hours * 3600) s) as [[e|overall] s1];
    simpl; [reflexivity|].
  destruct (api.truthy_bool include_layer_breakdown); simpl.
  - pose proof (layer_statistics_only_calls (seqZ 0 (Orch.N_LAYERS o)) (hours * 3600) s1)
      as Hloop.
    destruct (api.layer_statistics o _ _ s1) as [[[e|stats] s2] t2]; simpl in *;
      [by rewrite app_nil_r|].
    destruct (Orch.get_active_merge_sessions o s2) as [[e|active] s3]; simpl;
      rewrite ?app_nil_r, ?forallb_app, Hloop; reflexivity.
  - destruct (Orch.get_active_merge_sessions o s1) as [[e|active] s3]; reflexivity.
Qed.

(** A trace of orchestrator calls holds no entity-type check. *)
Lemma only_calls_no_entity_check (request : api.Request) (verified : bool) (t : list Event) :
  forallb is_call t = true →
  entity_guarded verified t = true ∧ Forall (asks_entity request) t ∧
  checks_entity_type t = false.
Proof.
  induction t as [|ev t IH]; simpl; [auto|].
  intros [Hev Ht]%andb_true_iff. destruct (IH Ht) as (Hguard & Hasks & Hchecks).
  destruct ev; try discriminate.
  split; [exact Hguard|]. split; [constructor; [exact I|exact Hasks]|exact Hchecks].
Qed.

(** A handler asks the chain for an entity type only after the signature
    verified, only for the request's signer and the type its route requires,
    and not at all where [settings.BITTENSOR] is off. *)
Theorem entity_type_checked_after_verification (request : api.Request) (s : S) :
  let run := api.router o env request s in
  entity_guarded false (trace run) = true ∧
  Forall (asks_entity request) (trace run) ∧
  (BITTENSOR env = false → checks_entity_type (trace run) = false).
Proof.
  intros run. subst run.
  destruct (api.epistula_headers request) as [headers|] eqn:Hheaders.
  - by_route request Hheaders; unfold asks_entity; unfold_handler; consult;
      repeat match goal with
             | H : String.eqb _ _ = _ |- _ => rewrite H
             end;
      repeat (case_match; simplify_eq; simpl in * );
      try discriminate;
      repeat match goal with
             | H : String.eqb _ _ = _ |- _ => rewrite H; clear H
             end;
      (split; [reflexivity|split; [repeat constructor; auto|]]);
      intros; first [reflexivity | discriminate].
  - destruct (public_routes_only_call request s Hheaders) as [Honly _].
    destruct (only_calls_no_entity_check request false _ Honly) as (Hguard & Hasks & Hchecks).
    auto.
Qed.

Lemma calls_app (t1 t2 : list Event) : calls (t1 ++ t2) = (calls t1 ++ calls t2)%list.
Proof. induction t1 as [|[] t1 IH]; simpl; congruence. Qed.

(** The per-layer loop, when it returns: one entry and one call per layer,
    in the order of the layers. *)
Lemma layer_statistics_entries (layers : list Z) (window : Z) (s : S)
    (stats : list (Value * Value)) :
  outcome (api.layer_statistics o layers window s) = inr stats →
  stats.*1 = PyInt <$> layers ∧
  calls (trace (api.layer_statistics o layers window s)) =
    (λ layer, Call_get_merge_statistics (Some layer) window) <$> layers.
Proof.
  revert s stats. induction layers as [|layer layers IH]; intros s stats.
  - simpl. unfold_handler. simpl. intros [= <-]. auto.
  - simpl. unfold_handler.
    destruct (Orch.get_merge_statistics o (Some layer) window s) as [[e|entry] s1];
      simpl; [discriminate|].
    specialize (IH s1).
    destruct (api.layer_statistics o layers window s1) as [[[e|more] s2] t2]; simpl in *;
      [discriminate|].
    destruct (IH more eq_refl) as [Hkeys Hcalls].
    intros [= <-]. split.
    + simpl. f_equal. exact Hkeys.
    + simpl. rewrite app_nil_r. f_equal. exact Hcalls.
Qed.

(** A returned merge performance history: the statistics were asked for
    the window in seconds, overall first and then, when the breakdown is
    wanted, for each of the layers 0 to N_LAYERS - 1 in turn; these layers
    are the keys of [layer_statistics], which is empty without breakdown. *)
Theorem history_layer_breakdown (hours : Z) (breakdown : option bool) (s : S)
    (resp : Response) :
  let run := api.router o env
               (api.GET_metrics_merge_performance_history (Some hours) breakdown) s in
  let layers := if api.truthy_bool breakdown then seqZ 0 (Orch.N_LAYERS o) else [] in
  outcome run = inr resp →
  ∃ v stats,
    resp = RespValue v ∧
    dict_get "layer_statistics" v = Some (PyDict stats) ∧
    stats.*1 = PyInt <$> layers ∧
    dict_get "time_window_hours" v = Some (PyInt hours) ∧
    calls (trace run) =
      (Call_get_merge_statistics None (hours * 3600) ::
       ((λ layer, Call_get_merge_statistics (Some layer) (hours * 3600)) <$> layers) ++
       [Call_get_active_merge_sessions; Call_completed_sessions])%list.
Proof.
  simpl. unfold api.get_merge_performance_history. unfold_handler. simpl.
  destruct (Orch.get_merge_statistics o None (hours * 3600) s) as [[e|overall] s1];
    simpl; [discriminate|].
  destruct (api.truthy_bool breakdown); simpl.
  - pose proof (layer_statistics_entries (seqZ 0 (Orch.N_LAYERS o)) (hours * 3600) s1)
      as Hloop.
    unfold outcome, trace in Hloop.
    destruct (api.layer_statistics o _ _ s1) as [[[e|stats] s2] t2]; simpl in *;
      [discriminate|].
    destruct (Hloop stats eq_refl) as [Hkeys Hcalls].
    destruct (Orch.get_active_merge_sessions o s2) as [[e|active] s3]; simpl;
      [discriminate|].
    intros [= <-]. eexists. exists stats.
    split; [reflexivity|]. split; [reflexivity|]. split; [exact Hkeys|].
    split; [reflexivity|]. simpl. rewrite calls_app, Hcalls. reflexivity.
  - destruct (Orch.get_active_merge_sessions o s1) as [[e|active] s3]; simpl;
      [discriminate|].
    intros [= <-]. eexists. exists []. repeat split; reflexivity.
Qed.

(** Whatever goes wrong in register_miner, the caller sees one and the same
    error: the handler either returns a registration for the signer or raises
    [409 Failed to register miner], never anything else. *)
Theorem register_fails_only_with_409 (headers : EpistulaHeaders) (s : S) :
  let run := api.router o env (api.POST_register headers) s in
  (∃ layer, outcome run = inr (RespRegistration {| reg_hotkey := signed_by headers;
                                                    reg_layer := layer |})) ∨
  outcome run = inl (HTTPException 409 "Failed to register miner").
Proof.
  simpl. unfold_handler. consult;
    repeat (case_match; simplify_eq; simpl in * ); eauto.
Qed.

(** An admitted registration of a signer without a record is one call of
    [register] for the signer: the layer it returns is the answer, and no
    layer, or any exception, is a 409. *)
Theorem register_new_signer (headers : EpistulaHeaders) (s : S) :
  Orch.get_all_miner_data o s !! signed_by headers = None →
  signature_ok env headers BodyEmpty = true →
  entity_type_ok o env (signed_by headers) miner s = true →
  let result := Orch.register o (signed_by headers) s in
  let run := api.router o env (api.POST_register headers) s in
  outcome run = register_answer (signed_by headers) result.1 ∧
  final_state run = result.2 ∧
  calls (trace run) = [Call_register (signed_by headers)].
Proof.
  unfold signature_ok, entity_type_ok. unfold_handler.
  intros Hnew. consult; intros Hsig Hentity; try discriminate;
    rewrite ?Hnew; simpl;
    destruct (Orch.register o (signed_by headers) s) as [[e|[layer|]] s1]; simpl;
    repeat split; reflexivity.
Qed.

(** An admitted status update is one call of [update_status] with the
    signer and the three fields of the update; an IndexError of the
    orchestrator is answered [404 Miner not found], any other exception
    leaves the handler as it is. *)
Theorem update_miner_status_admitted
    (status_update : MinerStatusUpdate) (headers : EpistulaHeaders) (s : S) (data : MinerData) :
  Orch.get_all_miner_data o s !! signed_by headers = Some data →
  signature_ok env headers (BodyStatus status_update) = true →
  entity_type_ok o env (signed_by headers) miner s = true →
  let result := Orch.update_status o (signed_by headers) (su_status status_update)
                  (su_activation_uid status_update) (su_activation_path status_update) s in
  let run := api.router o env (api.POST_miners_status status_update headers) s in
  outcome run = status_answer result.1 ∧
  final_state run = result.2 ∧
  calls (trace run) =
    [Call_update_status (signed_by headers) (su_status status_update)
       (su_activation_uid status_update) (su_activation_path status_update)].
Proof.
  unfold signature_ok, entity_type_ok. unfold_handler.
  intros Hknown. rewrite Hknown. consult; intros Hsig Hentity; try discriminate;
    destruct (Orch.update_status o (signed_by headers) (su_status status_update)
                (su_activation_uid status_update) (su_activation_path status_update) s)
      as [[[]|[]] s1];
    simpl; repeat split; reflexivity.
Qed.

(** get_chunks_for_miner has no [try]: for an admitted request the
    orchestrator's result is the answer and its exception, an IndexError
    included, leaves the handler as it is. *)
Theorem get_chunks_for_miner_admitted (headers : EpistulaHeaders) (s : S) (data : MinerData) :
  Orch.get_all_miner_data o s !! signed_by headers = Some data →
  signature_ok env headers BodyEmpty = true →
  entity_type_ok o env (signed_by headers) miner s = true →
  let result := Orch.get_chunks_for_miner o (signed_by headers) s in
  let run := api.router o env (api.GET_get_chunks_for_miner headers) s in
  outcome run = chunks_answer result.1 ∧
  final_state run = result.2 ∧
  (∀ msg, result.1 = inl (IndexError msg) → outcome run = inl (IndexError msg)).
Proof.
  unfold signature_ok, entity_type_ok. unfold_handler.
  intros Hknown. rewrite Hknown. consult; intros Hsig Hentity; try discriminate;
    destruct (Orch.get_chunks_for_miner o (signed_by headers) s) as [[e|[chunks indices]] s1];
    simpl; repeat split; try reflexivity; intros text [= ->]; reflexivity.
Qed.

(** An admitted validator registration is one call of [register_validator];
    when the orchestrator declines, the answer is
    [400 Validator registration failed] and the state is the one the call
    left. *)
Theorem register_validator_admitted
    (host : string) (port : Z) (scheme : string) (headers : EpistulaHeaders) (s : S) :
  signature_ok env headers BodyEmpty = true →
  entity_type_ok o env (signed_by headers) validator s = true →
  let result := Orch.register_validator o (signed_by headers) host port scheme s in
  let run := api.router o env (api.POST_register_validator host port scheme headers) s in
  outcome run = validator_answer result.1 ∧
  final_state run = result.2 ∧
  calls (trace run) = [Call_register_validator (signed_by headers) host port scheme].
Proof.
  unfold signature_ok, entity_type_ok. unfold_handler.
  consult; intros Hsig Hentity; try discriminate;
    destruct (Orch.register_validator o (signed_by headers) host port scheme s)
      as [[e|[]] s1];
    simpl; repeat split; reflexivity.
Qed.

End Routes.

(** * The further properties at work *)

Lemma get_remote_address_forwarded_witness :
  http_headers proxied !! "x-forwarded-for" = Some " 203.0.113.7 , 10.0.0.1" ∧
  get_remote_address proxied = "203.0.113.7" ∧
  has_comma (get_remote_address proxied) = false.
Proof.
  split; [reflexivity|]. split; [reflexivity|].
  apply (get_remote_address_forwarded proxied " 203.0.113.7 , 10.0.0.1"). reflexivity.
Defined.

Lemma get_remote_address_peer_witness :
  http_headers direct !! "x-forwarded-for" = None ∧
  get_remote_address direct = "198.51.100.4" ∧
  get_remote_address direct ≠ "".
Proof.
  split; [reflexivity|]. split; [reflexivity|].
  apply (get_remote_address_peer direct). reflexivity.
Defined.

Lemma get_signed_by_key_cases_witness :
  get_signed_by_key signed_request = "A" ∧
  get_signed_by_key proxied = get_remote_address proxied.
Proof.
  destruct (get_signed_by_key_cases signed_request) as [Hsigned _].
  destruct (get_signed_by_key_cases proxied) as [_ Hfallback].
  split.
  - apply Hsigned; [reflexivity|discriminate].
  - apply Hfallback. left. reflexivity.
Defined.

Lemma rejected_signature_answer_witness :
  api.epistula_headers (api.POST_miners_status training (forged "A")) = Some (forged "A") ∧
  has_record orch (api.POST_miners_status training (forged "A")) store = true ∧
  outcome (run true (api.POST_miners_status training (forged "A")) store) =
    inl (HTTPException 401 "Epistula verification failed: Signature mismatch").
Proof.
  split; [reflexivity|]. split; [reflexivity|].
  apply (rejected_signature_answer orch gated (api.POST_miners_status training (forged "A"))
           (forged "A") store "Signature mismatch");
    [reflexivity|reflexivity|reflexivity|discriminate].
Defined.

Lemma entity_rejection_stops_the_request_witness :
  BITTENSOR gated = true ∧
  verify_entity_type gated "D" (chain store) miner = inl (HTTPException 403 "Not a miner") ∧
  calls (trace (run true (api.POST_miners_status training (good "D")) store)) = [] ∧
  final_state (run true (api.POST_miners_status training (good "D")) store) = store ∧
  outcome (run true (api.POST_miners_status training (good "D")) store) =
    inl (HTTPException 403 "Not a miner").
Proof.
  split; [reflexivity|]. split; [reflexivity|].
  destruct (entity_rejection_stops_the_request orch gated
              (api.POST_miners_status training (good "D")) (good "D") miner store
              (HTTPException 403 "Not a miner") eq_refl eq_refl eq_refl eq_refl)
    as (Hcalls & Hstate & Hanswer).
  split; [exact Hcalls|]. split; [exact Hstate|]. apply Hanswer; reflexivity.
Defined.

Lemma public_routes_only_call_witness :
  api.epistula_headers (api.GET_is_merging 0) = None ∧
  forallb is_call (trace (run true (api.GET_is_merging 0) store)) = true.
Proof.
  split; [reflexivity|].
  apply (public_routes_only_call orch gated (api.GET_is_merging 0) store). reflexivity.
Defined.

Lemma history_layer_breakdown_witness :
  ∃ resp,
    outcome (run true (api.GET_metrics_merge_performance_history (Some 24) (Some true))
               busy_store) = inr resp ∧
    ∃ v stats,
      resp = RespValue v ∧
      dict_get "layer_statistics" v = Some (PyDict stats) ∧
      stats.*1 = [PyInt 0; PyInt 1].
Proof.
  eexists. split; [reflexivity|].
  destruct (history_layer_breakdown orch gated 24 (Some true) busy_store _ eq_refl)
    as (v & stats & Hresp & Hget & Hkeys & _).
  exists v, stats. split; [exact Hresp|]. split; [exact Hget|exact Hkeys].
Defined.

Lemma register_new_signer_witness :
  miners store !! "C" = None ∧
  signature_ok open (good "C") BodyEmpty = true ∧
  entity_type_ok orch open "C" miner store = true ∧
  calls (trace (run false (api.POST_register (good "C")) store)) = [Call_register "C"] ∧
  outcome (run false (api.POST_register (good "C")) store) =
    inl (HTTPException 409 "Failed to register miner").
Proof.
  do 3 (split; [reflexivity|]).
  destruct (register_new_signer orch open (good "C") store eq_refl eq_refl eq_refl)
    as (Hanswer & _ & Hcalls).
  split; [exact Hcalls|exact Hanswer].
Defined.

Lemma update_miner_status_admitted_witness :
  miners store !! "A" = Some (miner_on "A" 0) ∧
  signature_ok gated (good "A") (BodyStatus training) = true ∧
  entity_type_ok orch gated "A" miner store = true ∧
  calls (trace (run true (api.POST_miners_status training (good "A")) store)) =
    [Call_update_status "A" "TRAINING" None None].
Proof.
  repeat (split; [reflexivity|]).
  apply (update_miner_status_admitted orch gated training (good "A") store (miner_on "A" 0));
    reflexivity.
Defined.

Lemma get_chunks_for_miner_admitted_witness :
  miners store !! "A" = Some (miner_on "A" 0) ∧
  signature_ok gated (good "A") BodyEmpty = true ∧
  entity_type_ok orch gated "A" miner store = true ∧
  outcome (run true (api.GET_get_chunks_for_miner (good "A")) store) = inr (RespChunks [] []).
Proof.
  repeat (split; [reflexivity|]).
  destruct (get_chunks_for_miner_admitted orch gated (good "A") store (miner_on "A" 0)
              eq_refl eq_refl eq_refl) as (Hanswer & _).
  exact Hanswer.
Defined.

Lemma register_validator_admitted_witness :
  signature_ok gated (good "V1") BodyEmpty = true ∧
  entity_type_ok orch gated "V1" validator store = true ∧
  calls (trace (run true (api.POST_register_validator "val.example" 8080 "http" (good "V1"))
                  store)) = [Call_register_validator "V1" "val.example" 8080 "http"].
Proof.
  repeat (split; [reflexivity|]).
  apply (register_validator_admitted orch gated "val.example" 8080 "http" (good "V1") store);
    reflexivity.
Defined.

Lemma notify_weights_uploaded_admitted_witness :
  miners store !! "A" = Some (miner_on "A" 0) ∧
  signature_ok gated (good "A") BodyEmpty = true ∧
  entity_type_ok orch gated "A" miner store = true ∧
  outcome (run true (api.POST_miners_notify_weights_uploaded "w" "m" "o" "om" (good "A")) store)
    = weights_answer (inr false).
Proof.
  repeat (split; [reflexivity|]).
  destruct (notify_weights_uploaded_admitted orch gated "w" "m" "o" "om" (good "A") store
              (miner_on "A" 0) eq_refl eq_refl eq_refl) as (Hanswer & _).
  exact Hanswer.
Defined.

Lemma report_loss_admitted_witness :
  miners store !! "A" = Some (miner_on "A" 0) ∧
  signature_ok gated (good "A") (BodyLoss one_loss) = true ∧
  entity_type_ok orch gated "A" miner store = true ∧
  outcome (run true (api.POST_miners_report_loss one_loss (good "A")) store) =
    loss_answer "A" one_loss now (inr tt).
Proof.
  repeat (split; [reflexivity|]).
  destruct (report_loss_admitted orch gated one_loss (good "A") store (miner_on "A" 0)
              eq_refl eq_refl eq_refl) as (Hanswer & _).
  exact Hanswer.
Defined.

(** * Access to the orchestrator *)

Section Access.

Context {S MG : Type}.
Variable o : Orch.t S MG.
Variable env : Env MG.

Ltac by_route request Hheaders :=
  destruct request; simpl in Hheaders; try discriminate; injection Hheaders as <-.

(** On a route with Epistula headers nothing but the log-context lookup
    reaches the orchestrator before a verification that reported no error. *)
Lemma epistula_accesses_guarded (request : api.Request) (headers : EpistulaHeaders) (s : S) :
  api.epistula_headers request = Some headers →
  accesses_guarded (log_context_lookup request) false (trace (api.router o env request s)) = true.
Proof.
  intros Hheaders.
  by_route request Hheaders; unfold log_context_lookup; unfold_handler; consult;
    rewrite ?String.eqb_refl;
    repeat match goal with
           | H : String.eqb _ "" = _ |- _ => rewrite H
           end;
    try reflexivity;
    repeat (case_match; simplify_eq; simpl in *; rewrite ?String.eqb_refl; try reflexivity);
    try discriminate;
    repeat match goal with
           | H : String.eqb _ "" = _ |- _ => rewrite H; clear H
           end; reflexivity.
Qed.

(** After a rejected signature the trace holds the verification and, at
    most, the log-context lookup. *)
Lemma epistula_rejected_accesses (request : api.Request) (headers : EpistulaHeaders) (s : S) :
  api.epistula_headers request = Some headers →
  signature_ok env headers (api.signed_body request) = false →
  forallb (λ ev, is_verification ev || log_context_lookup request ev)
    (trace (api.router o env request s)) = true.
Proof.
  intros Hheaders.
  by_route request Hheaders; unfold log_context_lookup, signature_ok; unfold_handler; consult;
    rewrite ?String.eqb_refl; intros Hbad; try discriminate; reflexivity.
Qed.

(** The handlers of the routes without Epistula headers only call the
    orchestrator. *)
Lemma public_trace_only_calls (request : api.Request) (s : S) :
  api.epistula_headers request = None →
  forallb is_call (trace (api.router o env request s)) = true.
Proof.
  intros Hpublic.
  destruct request; simpl in Hpublic; try discriminate; simpl;
    try (unfold_handler; simpl; repeat (case_match; simplify_eq; simpl); reflexivity).
  unfold api.get_merge_performance_history. unfold_handler.
  destruct time_window_hours as [hours|]; simpl; [|reflexivity].
  destruct (Orch.get_merge_statistics o None (hours * 3600) s) as [[e|overall] s1];
    simpl; [reflexivity|].
  destruct (api.truthy_bool include_layer_breakdown); simpl.
  - pose proof (layer_statistics_only_calls o (seqZ 0 (Orch.N_LAYERS o)) (hours * 3600) s1)
      as Hloop.
    destruct (api.layer_statistics o _ _ s1) as [[[e|stats] s2] t2]; simpl in *;
      [by rewrite app_nil_r|].
    destruct (Orch.get_active_merge_sessions o s2) as [[e|active] s3]; simpl;
      rewrite ?app_nil_r, ?forallb_app, Hloop; reflexivity.
  - destruct (Orch.get_active_merge_sessions o s1) as [[e|active] s3]; reflexivity.
Qed.

(** C6. On every route that declares the Epistula headers, whatever the
    handler asks of the orchestrator (a method call, the metagraph read of
    the entity-type check, register's read of the whole registry) comes after
    a verification that reported no error, and what is verified is the
    request's own headers over the request's own body; after a verification
    that reported an error the handler asks nothing more and the orchestrator
    state is unchanged.  Exempt, and so neither placed before nor after the
    verification by this statement, is the one registry lookup the
    miner-scoped handlers make for their log context.  The routes without
    Epistula headers are public: their handlers verify nothing and only call
    the orchestrator. *)
Theorem orchestrator_access_needs_verification (request : api.Request) (s : S) :
  let run := api.router o env request s in
  match api.epistula_headers request with
  | Some headers =>
      accesses_guarded (log_context_lookup request) false (trace run) = true ∧
      Forall (verifies env headers (api.signed_body request)) (trace run) ∧
      (signature_ok env headers (api.signed_body request) = false →
       forallb (λ ev, is_verification ev || log_context_lookup request ev) (trace run) = true ∧
       calls (trace run) = [] ∧
       final_state run = s)
  | None =>
      forallb is_call (trace run) = true
  end.
Proof.
  intros run. subst run.
  destruct (api.epistula_headers request) as [headers|] eqn:Hheaders.
  - split; [exact (epistula_accesses_guarded request headers s Hheaders)|].
    split; [exact (authenticated_verifies o env request headers s Hheaders)|].
    intros Hbad.
    split; [exact (epistula_rejected_accesses request headers s Hheaders Hbad)|].
    exact (authenticated_rejected o env request headers s Hheaders Hbad).
  - exact (public_trace_only_calls request s Hheaders).
Qed.

(** *** Replaying the calls of a trace *)

Lemma replay_cons (c : Call) (cs : list Call) (s : S) :
  replay o (c :: cs) s = replay o cs (perform o c s).2.
Proof. reflexivity. Qed.

Lemma replay_app (cs1 cs2 : list Call) (s : S) :
  replay o (cs1 ++ cs2) s = replay o cs2 (replay o cs1 s).
Proof. unfold replay. apply foldl_app. Qed.

(** The per-layer loop changes the state only through its calls, all of
    them [get_merge_statistics]. *)
Lemma layer_statistics_replay (layers : list Z) (window : Z) (s : S) :
  let run := api.layer_statistics o layers window s in
  final_state run = replay o (calls (trace run)) s ∧
  forallb is_collector_read (calls (trace run)) = true.
Proof.
  revert s. induction layers as [|layer layers IH]; intros s; [split; reflexivity|].
  simpl. unfold_handler.
  destruct (Orch.get_merge_statistics o (Some layer) window s) as [[e|stats] s1] eqn:Hstats;
    simpl.
  - unfold replay. simpl. unfold status. rewrite Hstats. split; reflexivity.
  - specialize (IH s1).
    destruct (api.layer_statistics o layers window s1) as [[[e|more] s2] t2]; simpl in *;
      destruct IH as [Hstate Hreads]; rewrite ?app_nil_r;
      (split; [|exact Hreads]);
      rewrite replay_cons; simpl; unfold status; rewrite Hstats; exact Hstate.
Qed.

(** The merge performance history changes the state only through the
    collector reads it calls. *)
Lemma history_replay (hours : option Z) (breakdown : option bool) (s : S) :
  let run := api.router o env (api.GET_metrics_merge_performance_history hours breakdown) s in
  final_state run = replay o (calls (trace run)) s ∧
  forallb is_collector_read (calls (trace run)) = true.
Proof.
  simpl. unfold api.get_merge_performance_history. unfold_handler.
  destruct hours as [hours|]; simpl; [|split; reflexivity].
  destruct (Orch.get_merge_statistics o None (hours * 3600) s) as [[e|overall] s1] eqn:Hoverall;
    simpl.
  { unfold replay. simpl. unfold status. rewrite Hoverall. split; reflexivity. }
  assert (∀ cs, replay o (Call_get_merge_statistics None (hours * 3600) :: cs) s
                = replay o cs s1) as Hfirst.
  { intros cs. rewrite replay_cons. simpl. unfold status. by rewrite Hoverall. }
  destruct (api.truthy_bool breakdown); simpl.
  - destruct (layer_statistics_replay (seqZ 0 (Orch.N_LAYERS o)) (hours * 3600) s1)
      as [Hstate Hreads].
    unfold final_state, trace in Hstate, Hreads.
    destruct (api.layer_statistics o _ _ s1) as [[[e|stats] s2] t2]; simpl in *.
    + rewrite ?app_nil_r, Hfirst. split; [exact Hstate|exact Hreads].
    + destruct (Orch.get_active_merge_sessions o s2) as [[e|active] s3] eqn:Hactive; simpl;
        rewrite ?app_nil_r, Hfirst, calls_app, replay_app, forallb_app, Hreads, <- Hstate;
        simpl; unfold replay; simpl; unfold status; rewrite Hactive; split; reflexivity.
  - destruct (Orch.get_active_merge_sessions o s1) as [[e|active] s3] eqn:Hactive; simpl;
      rewrite ?Hfirst; unfold replay; simpl; unfold status; rewrite Hactive; split; reflexivity.
Qed.

(** The entry built for a session reports that session. *)
Lemma entry_reports (session : MergeSession) : reports session (api.recent_session_entry session).
Proof.
  unfold reports, api.recent_session_entry, api.get_session_duration,
    api.get_participation_rate, api.optional_float, api.len.
  destruct (completed_at session); repeat split.
Qed.

Lemma last_n_exact {A} (n : nat) (xs : list A) :
  length (api.last_n n xs) = (n `min` length xs)%nat.
Proof. unfold api.last_n. rewrite length_drop. lia. Qed.

(** C10. The merge_performance_history read returns, under
    [recent_sessions], one entry for each of the last ten completed sessions,
    or for all of them when there are fewer, in order; an entry reports the
    session's id, layer, status, the two timestamps, the duration, the
    participation rate and the sizes of the target-miner, weights-received
    and partitions-completed sets.  The handler writes nothing itself: the
    state it leaves is the one its calls leave, and all it calls are the
    collector's [get_merge_statistics], [get_active_merge_sessions] and
    [completed_sessions]; those being reads, as the spec has them, the state
    is untouched.  A response is returned whenever a window is given and those methods do not
    raise. *)
Theorem merge_performance_history_recent_sessions
    (hours : option Z) (breakdown : option bool) (s : S) :
  let run := api.router o env (api.GET_metrics_merge_performance_history hours breakdown) s in
  let completed := Orch.completed_sessions o (final_state run) in
  (∀ resp, outcome run = inr resp →
     ∃ v sessions entries,
       resp = RespValue v ∧
       dict_get "recent_sessions" v = Some (PyList entries) ∧
       (∃ older, completed = (older ++ sessions)%list) ∧
       length sessions = (10 `min` length completed)%nat ∧
       Forall2 reports sessions entries) ∧
  final_state run = replay o (calls (trace run)) s ∧
  forallb is_collector_read (calls (trace run)) = true ∧
  (collector_reads_only o → final_state run = s) ∧
  ((∀ layer window, returns (Orch.get_merge_statistics o layer window)) →
   returns (Orch.get_active_merge_sessions o) →
   is_Some hours →
   ∃ resp, outcome run = inr resp).
Proof.
  intros run completed.
  destruct (history_replay hours breakdown s) as [Hreplay Hreads].
  split; [|split; [exact Hreplay|split; [exact Hreads|split]]].
  - intros resp Hresp.
    destruct (history_recent_sessions o env hours breakdown s resp Hresp) as (v & -> & Hget).
    exists v, (api.last_n 10 completed), (api.recent_session_entry <$> api.last_n 10 completed).
    split; [reflexivity|]. split; [exact Hget|].
    split; [eexists; apply last_n_suffix|]. split; [apply last_n_exact|].
    apply Forall2_fmap_r, Forall_Forall2_diag, Forall_forall.
    intros session _. apply entry_reports.
  - intros [Hstats Hactive]. exact (history_leaves_state o env hours breakdown s Hstats Hactive).
  - intros Hstats Hactive [h ->]. exact (history_returns o env h breakdown s Hstats Hactive).
Qed.

(** But for the merge performance history, a handler makes per request at
    most one orchestrator method call, at most one read of the miner
    registry, at most one entity-type check and at most one signature
    verification. *)
Theorem at_most_one_access_of_each_kind (request : api.Request) (s : S) :
  is_history request = false →
  let t := trace (api.router o env request s) in
  (length (calls t) ≤ 1)%nat ∧
  (length (List.filter is_registry_read t) ≤ 1)%nat ∧
  (length (List.filter is_entity_check t) ≤ 1)%nat ∧
  (length (List.filter is_verification t) ≤ 1)%nat.
Proof.
  intros Hother.
  destruct request; simpl in Hother; try discriminate;
    unfold_handler; consult;
    repeat (case_match; simplify_eq; simpl in * ); repeat split; lia.
Qed.

(** When the per-layer loop raises, it raises what its last call raised. *)
Lemma layer_statistics_failure (layers : list Z) (window : Z) (s : S) (e : exn) :
  outcome (api.layer_statistics o layers window s) = inl e →
  ∃ pre c, calls (trace (api.layer_statistics o layers window s)) = (pre ++ [c])%list ∧
           (perform o c (replay o pre s)).1 = Some e.
Proof.
  revert s. induction layers as [|layer layers IH]; intros s; [discriminate|].
  simpl. unfold_handler.
  destruct (Orch.get_merge_statistics o (Some layer) window s) as [[e1|stats] s1] eqn:Hstats;
    simpl.
  - intros [= <-]. exists [], (Call_get_merge_statistics (Some layer) window).
    split; [reflexivity|]. unfold replay. simpl. unfold status. by rewrite Hstats.
  - specialize (IH s1).
    destruct (api.layer_statistics o layers window s1) as [[[e2|more] s2] t2]; simpl in *;
      [|discriminate].
    intros [= <-]. destruct (IH eq_refl) as (pre & c & Hcalls & Hraised).
    exists (Call_get_merge_statistics (Some layer) window :: pre), c.
    rewrite ?app_nil_r, Hcalls. split; [reflexivity|].
    rewrite replay_cons. simpl. unfold status. rewrite Hstats. exact Hraised.
Qed.

(** The metrics handlers whose body sits in a [try] never let an exception
    of the orchestrator through as it is: when one of them fails, the last
    method it called raised, and the answer is a 500 whose detail is the text
    of that exception. *)
Theorem wrapped_metrics_fail_with_500 (request : api.Request) (s : S) (e : exn) :
  wrapped request = true →
  window_given request = true →
  outcome (api.router o env request s) = inl e →
  ∃ pre c cause,
    calls (trace (api.router o env request s)) = (pre ++ [c])%list ∧
    (perform o c (replay o pre s)).1 = Some cause ∧
    e = HTTPException 500 (str_exn cause).
Proof.
  intros Hwrapped Hwindow.
  destruct request; simpl in Hwrapped, Hwindow; try discriminate; simpl.
  - unfold api.get_merge_performance_history. unfold_handler.
    destruct time_window_hours as [hours|]; [|discriminate]. simpl.
    destruct (Orch.get_merge_statistics o None (hours * 3600) s) as [[e1|overall] s1]
      eqn:Hoverall; simpl.
    { intros [= <-]. exists [], (Call_get_merge_statistics None (hours * 3600)), e1.
      split; [reflexivity|]. unfold replay. simpl. unfold status. by rewrite Hoverall. }
    assert (∀ cs, replay o (Call_get_merge_statistics None (hours * 3600) :: cs) s
                  = replay o cs s1) as Hfirst.
    { intros cs. rewrite replay_cons. simpl. unfold status. by rewrite Hoverall. }
    destruct (api.truthy_bool include_layer_breakdown); simpl.
    + pose proof (layer_statistics_failure (seqZ 0 (Orch.N_LAYERS o)) (hours * 3600) s1)
        as Hloop.
      destruct (layer_statistics_replay (seqZ 0 (Orch.N_LAYERS o)) (hours * 3600) s1)
        as [Hstate _].
      unfold outcome, final_state, trace in Hloop, Hstate.
      destruct (api.layer_statistics o _ _ s1) as [[[e2|stats] s2] t2]; simpl in *.
      * intros [= <-]. destruct (Hloop e2 eq_refl) as (pre & c & Hcalls & Hraised).
        exists (Call_get_merge_statistics None (hours * 3600) :: pre), c, e2.
        rewrite ?app_nil_r, Hcalls, Hfirst. auto.
      * destruct (Orch.get_active_merge_sessions o s2) as [[e3|active] s3] eqn:Hactive;
          simpl; [|discriminate].
        intros [= <-].
        exists (Call_get_merge_statistics None (hours * 3600) :: calls t2),
          Call_get_active_merge_sessions, e3.
        rewrite ?app_nil_r, calls_app, Hfirst, <- Hstate. simpl.
        split; [reflexivity|]. unfold status. rewrite Hactive. auto.
    + destruct (Orch.get_active_merge_sessions o s1) as [[e3|active] s3] eqn:Hactive;
        simpl; [|discriminate].
      intros [= <-].
      exists [Call_get_merge_statistics None (hours * 3600)], Call_get_active_merge_sessions, e3.
      rewrite Hfirst. simpl. split; [reflexivity|]. unfold replay. simpl. unfold status.
      rewrite Hactive. auto.
  - unfold_handler. simpl.
    destruct (Orch.get_historical_processing_times o _ _ _ s) as [[e1|v] s1] eqn:Hcall; simpl;
      [|discriminate].
    intros [= <-]. eexists [], _, e1. split; [reflexivity|].
    unfold replay. simpl. unfold status. rewrite Hcall. auto.
  - unfold_handler. simpl.
    destruct (Orch.get_merge_session_timeline o _ s) as [[e1|v] s1] eqn:Hcall; simpl;
      [|discriminate].
    intros [= <-]. eexists [], _, e1. split; [reflexivity|].
    unfold replay. simpl. unfold status. rewrite Hcall. auto.
  - unfold_handler. simpl.
    destruct (Orch.get_miners_grid_status o s) as [[e1|v] s1] eqn:Hcall; simpl;
      [|discriminate].
    intros [= <-]. eexists [], _, e1. split; [reflexivity|].
    unfold replay. simpl. unfold status. rewrite Hcall. auto.
  - unfold_handler. simpl.
    destruct (Orch.get_miner_detail o _ s) as [[e1|v] s1] eqn:Hcall; simpl;
      [|discriminate].
    intros [= <-]. eexists [], _, e1. split; [reflexivity|].
    unfold replay. simpl. unfold status. rewrite Hcall. auto.
  - unfold_handler. simpl.
    destruct (Orch.get_miners_by_merge_status o _ s) as [[e1|v] s1] eqn:Hcall; simpl;
      [|discriminate].
    intros [= <-]. eexists [], _, e1. split; [reflexivity|].
    unfold replay. simpl. unfold status. rewrite Hcall. auto.
Qed.

End Access.

(** * Access to the orchestrator, at work *)

(** Requests that reach the orchestrator with no signature verified: the
    public reads, and, through the log-context lookup, a status update whose
    signature is forged. *)
Lemma orchestrator_reached_unverified :
  guarded false (trace (run true (api.GET_is_merging 0) store)) = false ∧
  calls (trace (run true (api.GET_is_merging 0) store)) = [Call_is_merging 0] ∧
  guarded false (trace (run true api.GET_global_miner_weights store)) = false ∧
  calls (trace (run true api.GET_global_miner_weights store)) = [Call_get_global_miner_scores] ∧
  guarded false (trace (run true api.GET_losses store)) = false ∧
  guarded false (trace (run true api.GET_metrics_dashboard store)) = false ∧
  trace (run true (api.POST_miners_status training (forged "A")) store) =
    [EvGetMinerData "A";
     EvVerifySignature "A" (BodyStatus training) (Some "Signature mismatch")] ∧
  accesses_guarded (λ _, false) false
    (trace (run true (api.POST_miners_status training (forged "A")) store)) = false.
Proof. vm_compute. repeat split. Qed.

Lemma orchestrator_access_needs_verification_witness :
  signature_ok gated (forged "A") (BodyStatus training) = false ∧
  calls (trace (run true (api.POST_miners_status training (forged "A")) store)) = [] ∧
  final_state (run true (api.POST_miners_status training (forged "A")) store) = store ∧
  accesses_guarded (log_context_lookup (api.POST_miners_status training (good "A"))) false
    (trace (run true (api.POST_miners_status training (good "A")) store)) = true ∧
  forallb is_call (trace (run true (api.GET_is_merging 0) store)) = true.
Proof.
  pose proof (orchestrator_access_needs_verification orch gated
                (api.POST_miners_status training (forged "A")) store) as (_ & _ & Hforged).
  pose proof (orchestrator_access_needs_verification orch gated
                (api.POST_miners_status training (good "A")) store) as (Hgood & _).
  pose proof (orchestrator_access_needs_verification orch gated
                (api.GET_is_merging 0) store) as Hpublic.
  split; [reflexivity|].
  destruct (Hforged eq_refl) as (_ & Hcalls & Hstate).
  split; [exact Hcalls|]. split; [exact Hstate|]. split; [exact Hgood|exact Hpublic].
Defined.

Lemma merge_performance_history_recent_sessions_witness :
  let run := run true (api.GET_metrics_merge_performance_history (Some 24) (Some true))
               busy_store in
  length (completed busy_store) = 12%nat ∧
  final_state run = busy_store ∧
  ∃ resp, outcome run = inr resp ∧
          ∃ v sessions entries,
            resp = RespValue v ∧
            dict_get "recent_sessions" v = Some (PyList entries) ∧
            length sessions = 10%nat ∧
            Forall2 reports sessions entries.
Proof.
  split; [reflexivity|].
  destruct (merge_performance_history_recent_sessions orch gated (Some 24) (Some true)
              busy_store) as (Hrecent & _ & _ & Hstate & Hreturns).
  split.
  - apply Hstate. split; intros; intros s; reflexivity.
  - eexists. split; [reflexivity|].
    destruct (Hrecent _ eq_refl) as (v & sessions & entries & Hresp & Hget & _ & Hlength & Hall).
    exists v, sessions, entries. auto.
Defined.

Lemma at_most_one_access_of_each_kind_witness :
  is_history (api.POST_miners_report_loss one_loss (good "A")) = false ∧
  (length (calls (trace (run true (api.POST_miners_report_loss one_loss (good "A")) store)))
   ≤ 1)%nat ∧
  (length (List.filter is_registry_read
             (trace (run true (api.POST_miners_report_loss one_loss (good "A")) store)))
   ≤ 1)%nat.
Proof.
  split; [reflexivity|].
  destruct (at_most_one_access_of_each_kind orch gated
              (api.POST_miners_report_loss one_loss (good "A")) store eq_refl)
    as (Hcalls & Hreads & _).
  split; [exact Hcalls|exact Hreads].
Defined.

Lemma wrapped_metrics_fail_with_500_witness :
  wrapped api.GET_metrics_miners_grid_status = true ∧
  window_given api.GET_metrics_miners_grid_status = true ∧
  outcome (api.router failing gated api.GET_metrics_miners_grid_status store) =
    inl (HTTPException 500 "collector unavailable") ∧
  ∃ pre c cause,
    calls (trace (api.router failing gated api.GET_metrics_miners_grid_status store)) =
      (pre ++ [c])%list ∧
    (perform failing c (replay failing pre store)).1 = Some cause ∧
    HTTPException 500 "collector unavailable" = HTTPException 500 (str_exn cause).
Proof.
  split; [reflexivity|]. split; [reflexivity|]. split; [reflexivity|].
  apply (wrapped_metrics_fail_with_500 failing gated api.GET_metrics_miners_grid_status store);
    reflexivity.
Defined.
